(** * Session-based authentication of the clinic records API

    A shallow embedding of the authentication core of the server:
    the Mongoose models of [models/authModels], the session service
    [AuthService] of [auth/lucia], the identity-resolution [preHandler]
    hook of [plugins/auth], the [requireAuth] gate and the sign-up, login,
    logout and who-am-I routes of [routes/auth].

    Asynchronous code is modelled sequentially in a state-and-exception
    monad over a [World] that holds the two collections together with the
    sources of non-determinism the code consults: the wall clock read by
    [Date.now()], the driver faults of the document store and the bytes
    handed out by [crypto]. *)

From Stdlib Require Import ZArith Lia.
From Stdlib.Strings Require Import Byte Ascii String.
From stdpp Require Import gmap strings list fin_maps sorting.

Open Scope string_scope.
Open Scope Z_scope.

(** ** Documents and projections *)

(** [IUser] of [models/authModels]. *)
Module IUser.
Record t := mk {
  _id : string;
  email : string;
  hashed_password : string;
  role : string
}.
End IUser.

(** [ISession] of [models/authModels]; both expiries are epoch milliseconds. *)
Module ISession.
Record t := mk {
  _id : string;
  user_id : string;
  active_expires : Z;
  idle_expires : Z
}.
End ISession.

(** [SessionUser] of [auth/lucia]: the projection that leaves the service. *)
Module SessionUser.
Record t := mk {
  id : string;
  email : string;
  role : string
}.
End SessionUser.

(** [SessionData] of [auth/lucia]; a [Date] is its epoch-millisecond value. *)
Module SessionData.
Record t := mk {
  id : string;
  userId : string;
  expiresAt : Z
}.
End SessionData.

(** ** The world *)

Inductive Exn :=
| MongoError          (* the driver could not complete the operation *)
| DuplicateKeyError   (* E11000 on a unique index *)
| ValidationError     (* a [required] path is missing or empty *)
| HasherError         (* argon2 rejected its promise *)
| OtherError.

Record World := mkWorld {
  users : gmap string IUser.t;        (* collection of users, by [_id] *)
  sessions : gmap string ISession.t;  (* collection of sessions, by [_id] *)
  clock : nat -> Z;                   (* the k-th reading of [Date.now()] *)
  ticks : nat;                        (* readings taken so far *)
  faults : nat -> bool;               (* does the k-th store operation fail? *)
  ops : nat;                          (* store operations issued so far *)
  rng : nat -> byte;                  (* the k-th byte of [crypto] entropy *)
  drawn : nat;                        (* bytes handed out so far *)
  NODE_ENV : string                   (* [process.env.NODE_ENV] *)
}.

Definition set_users (f : gmap string IUser.t -> gmap string IUser.t) (w : World) : World :=
  mkWorld (f (users w)) (sessions w) (clock w) (ticks w) (faults w) (ops w)
          (rng w) (drawn w) (NODE_ENV w).

Definition set_sessions (f : gmap string ISession.t -> gmap string ISession.t) (w : World) : World :=
  mkWorld (users w) (f (sessions w)) (clock w) (ticks w) (faults w) (ops w)
          (rng w) (drawn w) (NODE_ENV w).

Definition set_ticks (n : nat) (w : World) : World :=
  mkWorld (users w) (sessions w) (clock w) n (faults w) (ops w)
          (rng w) (drawn w) (NODE_ENV w).

Definition set_ops (n : nat) (w : World) : World :=
  mkWorld (users w) (sessions w) (clock w) (ticks w) (faults w) n
          (rng w) (drawn w) (NODE_ENV w).

Definition set_drawn (n : nat) (w : World) : World :=
  mkWorld (users w) (sessions w) (clock w) (ticks w) (faults w) (ops w)
          (rng w) n (NODE_ENV w).

(** ** The monad of asynchronous computations

    A computation either resolves with a value or rejects with an
    exception; in both cases the effects performed so far stay. *)

Definition M (A : Type) : Type := World -> (Exn + A) * World.

#[global] Instance M_ret : MRet M := fun A a w => (inr a, w).

#[global] Instance M_bind : MBind M := fun A B k m w =>
  match m w with
  | (inl e, w') => (inl e, w')
  | (inr a, w') => k a w'
  end.

Definition throw {A} (e : Exn) : M A := fun w => (inl e, w).

(** [try { body } catch (error) { handler }] *)
Definition try_catch {A} (body : M A) (handler : Exn -> M A) : M A := fun w =>
  match body w with
  | (inl e, w') => handler e w'
  | (inr a, w') => (inr a, w')
  end.

Definition gets {A} (f : World -> A) : M A := fun w => (inr (f w), w).
Definition modify (f : World -> World) : M unit := fun w => (inr tt, f w).

Module Date.

(** [Date.now()] *)
Definition now : M Z := fun w =>
  (inr (clock w (ticks w)), set_ticks (S (ticks w)) w).

End Date.

(** One round trip to the document store. *)
Definition db_call : M unit := fun w =>
  let w' := set_ops (S (ops w)) w in
  if faults w (ops w) then (inl MongoError, w') else (inr tt, w').

(** ** JavaScript truthiness of (possibly undefined) strings *)

Definition truthy (s : string) : bool := negb (String.eqb s "").

Definition truthy_opt (o : option string) : bool :=
  match o with
  | Some s => truthy s
  | None => false
  end.

(** [o || d] for a string-or-undefined [o]. *)
Definition or_default (o : option string) (d : string) : string :=
  match o with
  | Some s => if truthy s then s else d
  | None => d
  end.

(** ** [crypto]: random bytes and their renderings *)

Definition hex_digit (n : N) : ascii :=
  match n with
  | 0%N => "0" | 1%N => "1" | 2%N => "2" | 3%N => "3"
  | 4%N => "4" | 5%N => "5" | 6%N => "6" | 7%N => "7"
  | 8%N => "8" | 9%N => "9" | 10%N => "a" | 11%N => "b"
  | 12%N => "c" | 13%N => "d" | 14%N => "e" | _ => "f"
  end%char.

Definition hex_of_octet (n : N) (rest : string) : string :=
  String (hex_digit (n / 16)) (String (hex_digit (n mod 16)) rest).

(** [Buffer.toString('hex')] *)
Definition toString_hex (bs : list N) : string :=
  foldr hex_of_octet "" bs.

(** The [n] octets of entropy that start at position [from]. *)
Definition entropy (source : nat -> byte) (from n : nat) : list N :=
  map (fun k => Byte.to_N (source k)) (seq from n).

(** [randomBytes(n)] *)
Definition randomBytes (n : nat) : M (list N) := fun w =>
  (inr (entropy (rng w) (drawn w) n), set_drawn (drawn w + n)%nat w).

(** [randomUUID()]: a version-4 UUID out of sixteen random bytes. *)
Definition uuid_of_octets (bs : list N) : string :=
  let bs := alter (fun b => N.lor (N.land b 15) 64) 6%nat bs in
  let bs := alter (fun b => N.lor (N.land b 63) 128) 8%nat bs in
  let part (from len : nat) := toString_hex (take len (drop from bs)) in
  part 0%nat 4%nat +:+ "-" +:+ part 4%nat 2%nat +:+ "-" +:+ part 6%nat 2%nat
    +:+ "-" +:+ part 8%nat 2%nat +:+ "-" +:+ part 10%nat 6%nat.

Definition randomUUID : M string :=
  bs ← randomBytes 16; mret (uuid_of_octets bs).

(** ** The Mongoose models of [models/authModels] *)

Module Session.

(** [Session.findById(id)] *)
Definition findById (id : string) : M (option ISession.t) :=
  db_call;; gets (fun w => sessions w !! id).

(** [Session.findByIdAndDelete(id)]: deleting an absent id is no error. *)
Definition findByIdAndDelete (id : string) : M unit :=
  db_call;; modify (set_sessions (delete id)).

(** [Session.findByIdAndUpdate(id, {active_expires, idle_expires})]:
    updates the document when there is one, and does nothing otherwise. *)
Definition findByIdAndUpdate (id : string) (active idle : Z) : M unit :=
  db_call;;
  modify (set_sessions (alter (fun s =>
    ISession.mk (ISession._id s) (ISession.user_id s) active idle) id)).

(** [Session.deleteMany({user_id})] *)
Definition deleteMany (userId : string) : M unit :=
  db_call;;
  modify (set_sessions (filter (fun kv => ISession.user_id kv.2 ≠ userId))).

(** [new Session(doc).save()]: [_id] and [user_id] are [required] strings,
    which Mongoose refuses when empty; the insert fails on a taken [_id]. *)
Definition save (s : ISession.t) : M unit :=
  if negb (truthy (ISession._id s) && truthy (ISession.user_id s))
  then throw ValidationError
  else
    db_call;;
    taken ← gets (fun w => sessions w !! ISession._id s);
    match taken with
    | Some _ => throw DuplicateKeyError
    | None => modify (set_sessions (insert (ISession._id s) s))
    end.

End Session.

(** Some user document with the given e-mail, if there is one. *)
Definition first_with_email (email : string) (m : gmap string IUser.t) : option IUser.t :=
  List.find (fun u => String.eqb (IUser.email u) email) (map snd (map_to_list m)).

Module User.

(** [User.findById(id)] *)
Definition findById (id : string) : M (option IUser.t) :=
  db_call;; gets (fun w => users w !! id).

(** [User.findOne({email})] *)
Definition findOne (email : string) : M (option IUser.t) :=
  db_call;; gets (fun w => first_with_email email (users w)).

(** [User.create(doc)]: [_id], [email] and [hashed_password] are [required];
    [_id] is the primary key and [email] carries a unique index. *)
Definition create (u : IUser.t) : M unit :=
  if negb (truthy (IUser._id u) && truthy (IUser.email u)
           && truthy (IUser.hashed_password u))
  then throw ValidationError
  else
    db_call;;
    taken ← gets (fun w => users w !! IUser._id u);
    same ← gets (fun w => first_with_email (IUser.email u) (users w));
    match taken, same with
    | None, None => modify (set_users (insert (IUser._id u) u))
    | _, _ => throw DuplicateKeyError
    end.

End User.

(** ** [AuthService] of [auth/lucia] *)

Module AuthService.

Definition SESSION_DURATION : Z := 1000 * 60 * 60 * 24 * 7.

Definition generateSessionId : M string :=
  bs ← randomBytes 32; mret (toString_hex bs).

Definition createSession (userId : string) : M SessionData.t :=
  sessionId ← generateSessionId;
  now ← Date.now;
  let expiresAt := now + SESSION_DURATION in
  Session.save (ISession.mk sessionId userId expiresAt expiresAt);;
  mret (SessionData.mk sessionId userId expiresAt).

Definition rejected : option SessionData.t * option SessionUser.t := (None, None).

(** The body of the [try] block of [validateSession]. *)
Definition validateSession_try (sessionId : string)
  : M (option SessionData.t * option SessionUser.t) :=
  session ← Session.findById sessionId;
  match session with
  | None => mret rejected
  | Some session =>
    now ← Date.now;
    if ISession.active_expires session <? now then
      Session.findByIdAndDelete sessionId;; mret rejected
    else
      user ← User.findById (ISession.user_id session);
      match user with
      | None => Session.findByIdAndDelete sessionId;; mret rejected
      | Some user =>
        now ← Date.now;
        let timeUntilExpiry := ISession.active_expires session - now in
        (if timeUntilExpiry <? SESSION_DURATION / 2 then
           now ← Date.now;
           let newExpiresAt := now + SESSION_DURATION in
           Session.findByIdAndUpdate sessionId newExpiresAt newExpiresAt
         else mret tt);;
        mret (Some (SessionData.mk (ISession._id session)
                      (ISession.user_id session)
                      (ISession.active_expires session)),
              Some (SessionUser.mk (IUser._id user) (IUser.email user)
                      (IUser.role user)))
      end
  end.

Definition validateSession (sessionId : string)
  : M (option SessionData.t * option SessionUser.t) :=
  if negb (truthy sessionId) then mret rejected
  else try_catch (validateSession_try sessionId) (fun _ => mret rejected).

Definition invalidateSession (sessionId : string) : M unit :=
  Session.findByIdAndDelete sessionId.

Definition invalidateAllUserSessions (userId : string) : M unit :=
  Session.deleteMany userId.

Record CookieAttributes := mkAttributes {
  httpOnly : bool;
  secure : bool;
  sameSite : string;
  path : string;
  maxAge : Z
}.

Record Cookie := mkCookie {
  name : string;
  value : string;
  attributes : CookieAttributes
}.

Definition createSessionCookie (sessionId : string) (secure : bool) : Cookie :=
  mkCookie "session" sessionId
    (mkAttributes true secure "lax" "/" (SESSION_DURATION / 1000)).

End AuthService.

(** ** Requests and replies *)

(** The JSON body of the sign-up and login requests; a missing field is
    [None] ([undefined]). *)
Module Body.
Record t := mk {
  email : option string;
  password : option string;
  role : option string
}.
End Body.

(** [FastifyRequest] with the decorations declared in [plugins/auth]. *)
Record FastifyRequest := mkRequest {
  body : Body.t;
  cookies : option (gmap string string);
  user : option SessionUser.t;
  session : option SessionData.t
}.

Inductive Payload :=
| ErrorPayload (error message : string)              (* {error, message} *)
| AccountPayload (message : string) (u : SessionUser.t)  (* {message, user} *)
| MessagePayload (message : string)                  (* {message} *)
| MePayload (u : SessionUser.t).                     (* {user} *)

Inductive CookieOp :=
| SetCookie (c : AuthService.Cookie)
| ClearCookie (name path : string).

(** What a handler has sent: status code, JSON payload and the cookie
    instructions issued on the reply, oldest first. *)
Record FastifyReply := mkReply {
  statusCode : Z;
  payload : Payload;
  cookie_ops : list CookieOp
}.

(** ** The identity-resolution hook of [plugins/auth] *)

Definition set_identity (u : option SessionUser.t) (s : option SessionData.t)
    (request : FastifyRequest) : FastifyRequest :=
  mkRequest (body request) (cookies request) u s.

Section PreHandler.

(** [auth.validateSession], as decorated on the application. *)
Variable validateSession : string -> M (option SessionData.t * option SessionUser.t).

Definition preHandler_with (request : FastifyRequest) : M FastifyRequest :=
  try_catch
    (let sessionId := or_default (cookies request ≫= (fun jar => jar !! "session")) "" in
     if negb (truthy sessionId) then
       mret (set_identity None None request)
     else
       r ← validateSession sessionId;
       mret (set_identity r.2 r.1 request))
    (fun _ => mret (set_identity None None request)).

End PreHandler.

Definition preHandler : FastifyRequest -> M FastifyRequest :=
  preHandler_with AuthService.validateSession.

(** ** The authorization gate *)

(** [roles.includes(role)] *)
Definition includes (roles : list string) (role : string) : bool :=
  existsb (String.eqb role) roles.

(** [requireAuth(roles)]: [None] lets the request through, [Some reply]
    is the rejection sent. *)
Definition requireAuth (roles : option (list string)) (request : FastifyRequest)
    : M (option FastifyReply) :=
  match user request with
  | None =>
    mret (Some (mkReply 401 (ErrorPayload "Unauthorized" "Authentication required") []))
  | Some u =>
    if match roles with
       | Some roles =>
         (0 <? Z.of_nat (length roles)) && negb (includes roles (SessionUser.role u))
       | None => false
       end
    then mret (Some (mkReply 403 (ErrorPayload "Forbidden" "Insufficient permissions") []))
    else mret None
  end.

(** [requireSession()]: reading [request.cookies.session] throws when the
    cookie jar itself is undefined. *)
Definition requireSession (request : FastifyRequest) : M (option FastifyReply) :=
  match cookies request with
  | None => throw OtherError
  | Some jar =>
    if negb (truthy_opt (jar !! "session")) then
      mret (Some (mkReply 401 (ErrorPayload "Unauthorized" "Session required") []))
    else mret None
  end.

Definition requireRole (role : string) := requireAuth (Some [role]).
Definition requireAnyRole (roles : list string) := requireAuth (Some roles).

(** ** The routes of [routes/auth] *)

Section Routes.

(** The argon2 binding: [argon2_hash salt plain] is the encoded digest and
    [argon2_verify digest plain] the outcome of the comparison; [None]
    stands for a rejected promise. *)
Variable argon2_hash : list N -> string -> option string.
Variable argon2_verify : string -> string -> option bool.

Definition hash (plain : string) : M string :=
  salt ← randomBytes 16;
  match argon2_hash salt plain with
  | Some digest => mret digest
  | None => throw HasherError
  end.

Definition verify (digest plain : string) : M bool :=
  match argon2_verify digest plain with
  | Some b => mret b
  | None => throw HasherError
  end.

Definition in_production : M bool :=
  gets (fun w => String.eqb (NODE_ENV w) "production").

(** [POST /signup] *)
Definition signup (req : FastifyRequest) : M FastifyReply :=
  try_catch
    (let email := Body.email (body req) in
     let password := Body.password (body req) in
     let role := Body.role (body req) in
     if negb (truthy_opt email) || negb (truthy_opt password) then
       mret (mkReply 400
               (ErrorPayload "Validation Error" "Email and password are required") [])
     else
       let email := default "" email in
       let password := default "" password in
       existing ← User.findOne email;
       match existing with
       | Some _ =>
         mret (mkReply 409 (ErrorPayload "Conflict" "Email already in use") [])
       | None =>
         hashed ← hash password;
         userId ← randomUUID;
         User.create (IUser.mk userId email hashed (or_default role "assistant"));;
         session ← AuthService.createSession userId;
         secure ← in_production;
         let cookie := AuthService.createSessionCookie (SessionData.id session) secure in
         mret (mkReply 201
                 (AccountPayload "User created successfully"
                    (SessionUser.mk userId email (or_default role "assistant")))
                 [SetCookie cookie])
       end)
    (fun _ =>
       mret (mkReply 500
               (ErrorPayload "Internal Server Error" "Failed to create user") [])).

(** [POST /login] *)
Definition login (req : FastifyRequest) : M FastifyReply :=
  try_catch
    (let email := Body.email (body req) in
     let password := Body.password (body req) in
     if negb (truthy_opt email) || negb (truthy_opt password) then
       mret (mkReply 400
               (ErrorPayload "Validation Error" "Email and password are required") [])
     else
       let email := default "" email in
       let password := default "" password in
       found ← User.findOne email;
       match found with
       | None =>
         mret (mkReply 401 (ErrorPayload "Unauthorized" "Invalid credentials") [])
       | Some u =>
         isValidPassword ← verify (IUser.hashed_password u) password;
         if negb isValidPassword then
           mret (mkReply 401 (ErrorPayload "Unauthorized" "Invalid credentials") [])
         else
           session ← AuthService.createSession (IUser._id u);
           secure ← in_production;
           let cookie := AuthService.createSessionCookie (SessionData.id session) secure in
           mret (mkReply 200
                   (AccountPayload "Logged in successfully"
                      (SessionUser.mk (IUser._id u) (IUser.email u) (IUser.role u)))
                   [SetCookie cookie])
       end)
    (fun _ =>
       mret (mkReply 500
               (ErrorPayload "Internal Server Error" "Failed to login") [])).

(** [POST /logout] *)
Definition logout (req : FastifyRequest) : M FastifyReply :=
  try_catch
    ((match session req with
      | Some s => AuthService.invalidateSession (SessionData.id s)
      | None => mret tt
      end);;
     mret (mkReply 200 (MessagePayload "Logged out successfully")
             [ClearCookie "session" "/"]))
    (fun _ =>
       mret (mkReply 500
               (ErrorPayload "Internal Server Error" "Failed to logout") [])).

(** [GET /me] *)
Definition me (req : FastifyRequest) : M FastifyReply :=
  match user req with
  | None => mret (mkReply 401 (ErrorPayload "Unauthorized" "Not authenticated") [])
  | Some u => mret (mkReply 200 (MePayload u) [])
  end.

End Routes.

(** ** Worked scenarios

    Concrete worlds on which the development is exercised: a healthy store,
    a clock that advances by one millisecond per reading, and a small salted
    hasher standing in for argon2. *)

Module Scenario.

(** A digest is ["$ref$" ++ hex salt ++ "$" ++ plain]; anything that does
    not start with the tag is malformed and makes [verify] reject. *)
Definition ref_hash (salt : list N) (plain : string) : option string :=
  Some ("$ref$" +:+ toString_hex salt +:+ "$" +:+ plain).

Definition ref_verify (digest plain : string) : option bool :=
  if String.prefix "$ref$" digest then
    Some (String.eqb (String.substring 38 (String.length digest - 38) digest) plain)
  else None.

Definition t0 : Z := 1700000000000.

Definition ticking (k : nat) : Z := t0 + Z.of_nat k.
Definition frozen (k : nat) : Z := t0.

Definition never (k : nat) : bool := false.
Definition zeros (k : nat) : byte := x00.

Definition ana : IUser.t :=
  IUser.mk "u-ana" "ana@clinic.test"
    "$ref$00000000000000000000000000000000$s3cret" "doctor".

(** A user whose stored digest is not a digest at all. *)
Definition eva : IUser.t :=
  IUser.mk "u-eva" "eva@clinic.test" "garbage" "nurse".

Definition staff : gmap string IUser.t :=
  <["u-ana" := ana]> (<["u-eva" := eva]> ∅).

Definition session_of (id owner : string) (expires : Z) : ISession.t :=
  ISession.mk id owner expires expires.

Definition world_with (ss : gmap string ISession.t) (now : nat -> Z) : World :=
  mkWorld staff ss now 0 never 0 zeros 0 "production".

Definition day : Z := 1000 * 60 * 60 * 24.

(** [fresh]: six days left; [ageing]: one day left; [lapsed]: expired a
    second ago; [edge]: expiring at this very millisecond; [orphan]: owned
    by nobody in the store. *)
Definition fresh : gmap string ISession.t :=
  <["tok" := session_of "tok" "u-ana" (t0 + 6 * day)]> ∅.
Definition ageing : gmap string ISession.t :=
  <["tok" := session_of "tok" "u-ana" (t0 + day)]> ∅.
Definition lapsed : gmap string ISession.t :=
  <["tok" := session_of "tok" "u-ana" (t0 - 1000)]> ∅.
Definition edge : gmap string ISession.t :=
  <["tok" := session_of "tok" "u-ana" t0]> ∅.
Definition orphan : gmap string ISession.t :=
  <["tok" := session_of "tok" "u-gone" (t0 + 6 * day)]> ∅.
Definition ward : gmap string ISession.t :=
  <["a1" := session_of "a1" "u-ana" (t0 + day)]>
    (<["e1" := session_of "e1" "u-eva" (t0 + 2 * day)]>
       (<["a2" := session_of "a2" "u-ana" (t0 + 3 * day)]> ∅)).

Definition credentials (email password : string) (role : option string) : FastifyRequest :=
  mkRequest (Body.mk (Some email) (Some password) role) None None None.

(** A request that presents [tok] in its session cookie. *)
Definition presenting (tok : string) : FastifyRequest :=
  mkRequest (Body.mk None None None) (Some (<["session" := tok]> ∅)) None None.

(** A store whose second operation fails. *)
Definition second_fails (k : nat) : bool := Nat.eqb k 1.

Definition flaky_world (ss : gmap string ISession.t) : World :=
  mkWorld staff ss ticking 0 second_fails 0 zeros 0 "production".

(** A validation call that rejects its promise outright. *)
Definition broken_validate (tok : string)
    : M (option SessionData.t * option SessionUser.t) :=
  throw OtherError.

End Scenario.

(** ** Assumptions on the environment *)

(** The document store answers every operation. *)
Definition healthy (w : World) : Prop := forall k, faults w k = false.

(** Successive readings of the wall clock never go back. *)
Definition monotone_clock (w : World) : Prop :=
  forall i j, (i <= j)%nat -> clock w i <= clock w j.

(** The session document after a sliding extension decided at reading [now]. *)
Definition extended (now : Z) (s : ISession.t) : ISession.t :=
  ISession.mk (ISession._id s) (ISession.user_id s)
    (now + AuthService.SESSION_DURATION) (now + AuthService.SESSION_DURATION).

(** What [validateSession] hands back for an accepted session. *)
Definition accepted (s : ISession.t) (u : IUser.t)
    : option SessionData.t * option SessionUser.t :=
  (Some (SessionData.mk (ISession._id s) (ISession.user_id s) (ISession.active_expires s)),
   Some (SessionUser.mk (IUser._id u) (IUser.email u) (IUser.role u))).

(** The world after [n] clock readings and [k] answered store operations. *)
Definition advance (n k : nat) (w : World) : World :=
  set_ops (k + ops w) (set_ticks (n + ticks w) w).

(** ** The authorization gate, as the specification words it

    No identity: reject with "authentication required". Identity present,
    role set non-empty, identity's role not in the set: reject with
    "insufficient permissions". Otherwise: allow. *)

Inductive GateDecision :=
| Allow
| AuthenticationRequired
| InsufficientPermissions.

Definition gate_spec (identity : option SessionUser.t) (roles : option (list string))
    : GateDecision :=
  match identity, roles with
  | None, _ => AuthenticationRequired
  | Some u, Some (r :: rs) =>
    if bool_decide (SessionUser.role u ∈ r :: rs) then Allow else InsufficientPermissions
  | Some _, _ => Allow
  end.

(** What the client sees of a decision; [None] is a request let through. *)
Definition gate_reply (d : GateDecision) : option FastifyReply :=
  match d with
  | Allow => None
  | AuthenticationRequired =>
    Some (mkReply 401 (ErrorPayload "Unauthorized" "Authentication required") [])
  | InsufficientPermissions =>
    Some (mkReply 403 (ErrorPayload "Forbidden" "Insufficient permissions") [])
  end.

(** The two replies of the login route that the claims speak about. *)
Definition invalid_credentials : FastifyReply :=
  mkReply 401 (ErrorPayload "Unauthorized" "Invalid credentials") [].

Definition failed_to_login : FastifyReply :=
  mkReply 500 (ErrorPayload "Internal Server Error" "Failed to login") [].

(** ** Well-formed user collections

    Every document sits under its own [_id] (the primary key), and the
    unique index on [email] holds. *)

Definition keyed_by_id (m : gmap string IUser.t) : Prop :=
  forall k u, m !! k = Some u -> IUser._id u = k.

Definition unique_emails (m : gmap string IUser.t) : Prop :=
  forall k1 k2 u1 u2,
    m !! k1 = Some u1 -> m !! k2 = Some u2 ->
    IUser.email u1 = IUser.email u2 -> k1 = k2.

(** ** The browser's side of the cookie

    The next request of a client that kept the cookie [c] and nothing else. *)
Definition returning (c : AuthService.Cookie) : FastifyRequest :=
  mkRequest (Body.mk None None None)
    (Some (<[AuthService.name c := AuthService.value c]> ∅)) None None.

(** The characters of a lower-case hexadecimal rendering. *)
Definition is_hex_char (c : ascii) : bool :=
  let n := N_of_ascii c in
  ((48 <=? n) && (n <=? 57) || (97 <=? n) && (n <=? 102))%N.

Fixpoint all_chars (p : ascii -> bool) (s : string) : bool :=
  match s with
  | EmptyString => true
  | String c s' => p c && all_chars p s'
  end.

(** Reading a hexadecimal rendering back, as [Buffer.from(s, 'hex')] does
    on well-formed input: two digits per octet. *)
Definition hex_value (c : ascii) : N :=
  let n := N_of_ascii c in
  (if n <? 58 then n - 48 else n - 87)%N.

Fixpoint parse_hex (s : string) : list N :=
  match s with
  | String hi (String lo rest) => (16 * hex_value hi + hex_value lo)%N :: parse_hex rest
  | _ => []
  end.

(** Further replies of the sign-up and login routes. *)
Definition missing_credentials : FastifyReply :=
  mkReply 400 (ErrorPayload "Validation Error" "Email and password are required") [].

Definition email_in_use : FastifyReply :=
  mkReply 409 (ErrorPayload "Conflict" "Email already in use") [].

Definition failed_to_create_user : FastifyReply :=
  mkReply 500 (ErrorPayload "Internal Server Error" "Failed to create user") [].

(** The 200 reply of a login that opened the session [sid] for [u]. *)
Definition logged_in (u : IUser.t) (sid : string) (secure : bool) : FastifyReply :=
  mkReply 200
    (AccountPayload "Logged in successfully"
       (SessionUser.mk (IUser._id u) (IUser.email u) (IUser.role u)))
    [SetCookie (AuthService.createSessionCookie sid secure)].

(** Replies of the logout and who-am-I routes and of the gates. *)
Definition logged_out : FastifyReply :=
  mkReply 200 (MessagePayload "Logged out successfully") [ClearCookie "session" "/"].

Definition failed_to_logout : FastifyReply :=
  mkReply 500 (ErrorPayload "Internal Server Error" "Failed to logout") [].

Definition not_authenticated : FastifyReply :=
  mkReply 401 (ErrorPayload "Unauthorized" "Not authenticated") [].

Definition authentication_required : FastifyReply :=
  mkReply 401 (ErrorPayload "Unauthorized" "Authentication required") [].

Definition insufficient_permissions : FastifyReply :=
  mkReply 403 (ErrorPayload "Forbidden" "Insufficient permissions") [].

(** ** The notes of a patient ([models/Patient])

    [PatientNote] with its date as epoch milliseconds. *)
Module PatientNote.
Record t := mk {
  title : string;
  content : string;
  date : Z
}.
End PatientNote.

(** [Array.prototype.sort(compare)]: the sort is stable, so for a consistent
    comparator it is the insertion of each element, from the last to the
    first, in front of the first element it does not have to follow. *)
Fixpoint insert_sorted {A} (compare : A -> A -> Z) (x : A) (l : list A) : list A :=
  match l with
  | [] => [x]
  | y :: l' =>
    if compare x y <=? 0 then x :: y :: l' else y :: insert_sorted compare x l'
  end.

Definition Array_sort {A} (compare : A -> A -> Z) (l : list A) : list A :=
  foldr (insert_sorted compare) [] l.

(** [Array.prototype.slice(0, end)] for an integral [end]: a negative [end]
    counts from the end of the array. *)
Definition Array_slice_to {A} (stop : Z) (l : list A) : list A :=
  let len := Z.of_nat (length l) in
  let final := if stop <? 0 then Z.max (len + stop) 0 else Z.min stop len in
  take (Z.to_nat final) l.

(** [(a, b) => new Date(b.date).getTime() - new Date(a.date).getTime()] *)
Definition newest_first (a b : PatientNote.t) : Z :=
  PatientNote.date b - PatientNote.date a.

(** [getRecentNotes(limit = 5)]: the notes handed back, and [this.notes]
    as the in-place sort leaves it. The dates are valid dates, as the
    schema type [Date] makes them, and [limit] is integral. *)
Definition getRecentNotes (notes : list PatientNote.t) (limit : option Z)
    : list PatientNote.t * list PatientNote.t :=
  let sorted := Array_sort newest_first notes in
  (Array_slice_to (default 5 limit) sorted, sorted).

(** "No older than". *)
Definition at_least_as_recent (a b : PatientNote.t) : Prop :=
  PatientNote.date b <= PatientNote.date a.

(** * Symbolic execution *)

Ltac unfold_model :=
  unfold AuthService.validateSession, AuthService.validateSession_try,
    AuthService.createSession, AuthService.generateSessionId,
    AuthService.invalidateSession, AuthService.invalidateAllUserSessions,
    AuthService.rejected,
    Session.findById, Session.findByIdAndDelete, Session.findByIdAndUpdate,
    Session.deleteMany, Session.save, User.findById, User.findOne, User.create,
    randomUUID, randomBytes, Date.now, db_call, gets, modify, throw, try_catch,
    mbind, M_bind, mret, M_ret, advance, extended, accepted,
    set_users, set_sessions, set_ticks, set_ops, set_drawn in *.

Ltac world_simpl :=
  cbn [users sessions clock ticks faults ops rng drawn NODE_ENV fst snd
       IUser._id IUser.email IUser.hashed_password IUser.role
       ISession._id ISession.user_id ISession.active_expires ISession.idle_expires
       SessionData.id SessionData.userId SessionData.expiresAt
       SessionUser.id SessionUser.email SessionUser.role
       negb andb orb Nat.add] in *.

Ltac exec := unfold_model; world_simpl.

(** Continue past store operations that the hypothesis [H] says succeed. *)
Ltac answered H := repeat (progress (world_simpl; rewrite ?H)).

Lemma truthy_true s : s <> "" -> truthy s = true.
Proof.
  intros Hs. unfold truthy. destruct (String.eqb_spec s ""); [contradiction | reflexivity].
Qed.

Lemma truthy_false s : truthy s = false -> s = "".
Proof.
  unfold truthy. destruct (String.eqb_spec s ""); [auto | discriminate].
Qed.

(** ** The model at work on the scenarios *)

Example hex_rendering : toString_hex [0; 255; 16; 171]%N = "00ff10ab".
Proof. reflexivity. Qed.

Example uuid_rendering :
  uuid_of_octets (entropy Scenario.zeros 0 16) = "00000000-0000-4000-8000-000000000000".
Proof. reflexivity. Qed.

Example session_cookie :
  AuthService.createSessionCookie "abc" true
  = AuthService.mkCookie "session" "abc"
      (AuthService.mkAttributes true true "lax" "/" 604800).
Proof. reflexivity. Qed.

Example fresh_session_is_accepted :
  let out := AuthService.validateSession "tok"
               (Scenario.world_with Scenario.fresh Scenario.ticking) in
  out.1 = inr (accepted (Scenario.session_of "tok" "u-ana"
                           (Scenario.t0 + 6 * Scenario.day)) Scenario.ana)
  /\ sessions out.2 = Scenario.fresh /\ ops out.2 = 2%nat /\ ticks out.2 = 2%nat.
Proof. vm_compute. auto. Qed.

Example empty_token_touches_nothing :
  let w := Scenario.world_with Scenario.fresh Scenario.ticking in
  AuthService.validateSession "" w = (inr AuthService.rejected, w).
Proof. reflexivity. Qed.

Example login_sets_the_cookie :
  (login Scenario.ref_verify (Scenario.credentials "ana@clinic.test" "s3cret" None)
     (Scenario.world_with ∅ Scenario.ticking)).1
  = inr (mkReply 200
           (AccountPayload "Logged in successfully"
              (SessionUser.mk "u-ana" "ana@clinic.test" "doctor"))
           [SetCookie (AuthService.createSessionCookie
                         "0000000000000000000000000000000000000000000000000000000000000000"
                         true)]).
Proof. vm_compute. reflexivity. Qed.

Example signup_of_a_registered_email_conflicts :
  (signup Scenario.ref_hash (Scenario.credentials "ana@clinic.test" "pw" None)
     (Scenario.world_with ∅ Scenario.ticking)).1
  = inr (mkReply 409 (ErrorPayload "Conflict" "Email already in use") []).
Proof. vm_compute. reflexivity. Qed.

Example logout_clears_the_cookie :
  let w := Scenario.world_with Scenario.fresh Scenario.ticking in
  let req := mkRequest (Body.mk None None None) None None
               (Some (SessionData.mk "tok" "u-ana" (Scenario.t0 + 6 * Scenario.day))) in
  (logout req w).1
  = inr (mkReply 200 (MessagePayload "Logged out successfully") [ClearCookie "session" "/"])
  /\ sessions (logout req w).2 !! "tok" = None.
Proof. vm_compute. auto. Qed.

Lemma half_duration : AuthService.SESSION_DURATION / 2 = 302400000.
Proof. reflexivity. Qed.

Lemma duration_value : AuthService.SESSION_DURATION = 604800000.
Proof. reflexivity. Qed.

Section ValidateRuns.

Variables (w : World) (tok : string) (s : ISession.t).
Hypothesis Hhealthy : healthy w.
Hypothesis Htok : tok <> "".
Hypothesis Hs : sessions w !! tok = Some s.

Let n1 := clock w (ticks w).
Let n2 := clock w (S (ticks w)).
Let n3 := clock w (S (S (ticks w))).

(** An expired session is evicted. *)
Lemma validate_expired :
  ISession.active_expires s < n1 ->
  AuthService.validateSession tok w
  = (inr AuthService.rejected, set_sessions (delete tok) (advance 1 2 w)).
Proof.
  intros Hexp. subst n1. exec. rewrite (truthy_true _ Htok).
  answered Hhealthy. rewrite Hs. world_simpl.
  destruct (Z.ltb_spec (ISession.active_expires s) (clock w (ticks w))); [| lia].
  answered Hhealthy. reflexivity.
Qed.

(** A session whose owner is gone is evicted. *)
Lemma validate_orphan :
  n1 <= ISession.active_expires s ->
  users w !! ISession.user_id s = None ->
  AuthService.validateSession tok w
  = (inr AuthService.rejected, set_sessions (delete tok) (advance 1 3 w)).
Proof.
  intros Hlive Hu. subst n1. exec. rewrite (truthy_true _ Htok).
  answered Hhealthy. rewrite Hs. world_simpl.
  destruct (Z.ltb_spec (ISession.active_expires s) (clock w (ticks w))); [lia |].
  answered Hhealthy. rewrite Hu. answered Hhealthy. reflexivity.
Qed.

Variable u : IUser.t.
Hypothesis Hu : users w !! ISession.user_id s = Some u.
Hypothesis Hlive : n1 <= ISession.active_expires s.

(** With at least half the lifetime left the store is not written. *)
Lemma validate_keep :
  AuthService.SESSION_DURATION / 2 <= ISession.active_expires s - n2 ->
  AuthService.validateSession tok w = (inr (accepted s u), advance 2 2 w).
Proof.
  intros Hrem. subst n1 n2. exec. rewrite (truthy_true _ Htok).
  answered Hhealthy. rewrite Hs. world_simpl.
  destruct (Z.ltb_spec (ISession.active_expires s) (clock w (ticks w))); [lia |].
  answered Hhealthy. rewrite Hu. answered Hhealthy.
  destruct (Z.ltb_spec (ISession.active_expires s - clock w (S (ticks w)))
              (AuthService.SESSION_DURATION / 2)); [lia |].
  reflexivity.
Qed.

(** With less than half the lifetime left the expiry slides. *)
Lemma validate_extend :
  ISession.active_expires s - n2 < AuthService.SESSION_DURATION / 2 ->
  AuthService.validateSession tok w
  = (inr (accepted s u), set_sessions (alter (extended n3) tok) (advance 3 3 w)).
Proof.
  intros Hrem. subst n1 n2 n3. exec. rewrite (truthy_true _ Htok).
  answered Hhealthy. rewrite Hs. world_simpl.
  destruct (Z.ltb_spec (ISession.active_expires s) (clock w (ticks w))); [lia |].
  answered Hhealthy. rewrite Hu. answered Hhealthy.
  destruct (Z.ltb_spec (ISession.active_expires s - clock w (S (ticks w)))
              (AuthService.SESSION_DURATION / 2)); [| lia].
  answered Hhealthy. reflexivity.
Qed.

End ValidateRuns.

(** Every run of [validateSession], whatever the store does: it resolves,
    and it resolves with a session only after the lookups (and, when it
    slides the expiry, the update) were answered. *)
Lemma validateSession_cases (tok : string) (w : World) :
  let out := AuthService.validateSession tok w in
  (out.1 = inr AuthService.rejected /\
   (sessions out.2 = sessions w \/ sessions out.2 = delete tok (sessions w)))
  \/
  (exists s u,
      sessions w !! tok = Some s /\
      users w !! ISession.user_id s = Some u /\
      clock w (ticks w) <= ISession.active_expires s /\
      faults w (ops w) = false /\ faults w (S (ops w)) = false /\
      out.1 = inr (accepted s u) /\
      ((AuthService.SESSION_DURATION / 2
          <= ISession.active_expires s - clock w (S (ticks w)) /\
        out.2 = advance 2 2 w)
       \/
       (ISession.active_expires s - clock w (S (ticks w))
          < AuthService.SESSION_DURATION / 2 /\
        faults w (S (S (ops w))) = false /\
        out.2 = set_sessions (alter (extended (clock w (S (S (ticks w))))) tok)
                  (advance 3 3 w)))).
Proof.
  intros out. subst out. exec.
  destruct (truthy tok); world_simpl; [| left; auto].
  destruct (faults w (ops w)) eqn:F0; world_simpl; [left; auto |].
  destruct (sessions w !! tok) as [s|] eqn:Hs; world_simpl; [| left; auto].
  destruct (Z.ltb_spec (ISession.active_expires s) (clock w (ticks w))); world_simpl.
  { destruct (faults w (S (ops w))); world_simpl; left; auto. }
  destruct (faults w (S (ops w))) eqn:F1; world_simpl; [left; auto |].
  destruct (users w !! ISession.user_id s) as [u|] eqn:Hu; world_simpl.
  2: { destruct (faults w (S (S (ops w)))); world_simpl; left; auto. }
  destruct (Z.ltb_spec (ISession.active_expires s - clock w (S (ticks w)))
              (AuthService.SESSION_DURATION / 2)); world_simpl.
  - destruct (faults w (S (S (ops w)))) eqn:F2; world_simpl; [left; auto |].
    right. exists s, u. repeat split; auto; right; repeat split; auto.
  - right. exists s, u. repeat split; auto; left; split; auto; lia.
Qed.

(** ** Sessions already in the store, across the service's operations *)

Lemma createSession_preserves (userId : string) (w : World) k s :
  sessions w !! k = Some s ->
  sessions (AuthService.createSession userId w).2 !! k = Some s.
Proof.
  intros Hk. exec.
  set (sid := toString_hex _).
  destruct (truthy sid && truthy userId); world_simpl; auto.
  destruct (faults w (ops w)); world_simpl; auto.
  destruct (sessions w !! sid) eqn:Hfree; world_simpl; auto.
  rewrite lookup_insert_ne; auto. intros ->. congruence.
Qed.

Lemma validateSession_absent (tok : string) (w : World) :
  sessions w !! tok = None ->
  (AuthService.validateSession tok w).1 = inr AuthService.rejected.
Proof.
  intros Hnone.
  destruct (validateSession_cases tok w) as [[Hr _] | (s & u & Hs & _)]; [exact Hr |].
  congruence.
Qed.

Lemma validateSession_never_shortens (tok : string) (w : World) k s s' :
  monotone_clock w ->
  sessions w !! k = Some s ->
  sessions (AuthService.validateSession tok w).2 !! k = Some s' ->
  ISession.active_expires s <= ISession.active_expires s'.
Proof.
  intros Hclock Hk Hk'.
  destruct (validateSession_cases tok w)
    as [[_ [Hsame | Hdel]] | (x & u & Hx & _ & _ & _ & _ & _ & [[_ Hw] | (Hrem & _ & Hw)])].
  - rewrite Hsame in Hk'. assert (s' = s) by congruence. subst. lia.
  - rewrite Hdel in Hk'. apply lookup_delete_Some in Hk' as [_ Hk'].
    assert (s' = s) by congruence. subst. lia.
  - rewrite Hw in Hk'. unfold advance, set_ops, set_ticks in Hk'. world_simpl.
    assert (s' = s) by congruence. subst. lia.
  - rewrite Hw in Hk'. unfold advance, set_sessions, set_ops, set_ticks in Hk'.
    world_simpl. apply lookup_alter_Some in Hk' as [(<- & y & Hy & ->) | [_ Hk']].
    + assert (y = s) by congruence. assert (x = s) by congruence. subst.
      unfold extended. world_simpl.
      pose proof (Hclock (S (ticks w)) (S (S (ticks w))) ltac:(lia)).
      rewrite half_duration in Hrem. rewrite duration_value. lia.
    + assert (s' = s) by congruence. subst. lia.
Qed.

Lemma invalidateSession_never_shortens (tok : string) (w : World) k s s' :
  sessions w !! k = Some s ->
  sessions (AuthService.invalidateSession tok w).2 !! k = Some s' ->
  s' = s.
Proof.
  intros Hk. exec. destruct (faults w (ops w)); world_simpl.
  - congruence.
  - intros [_ Hk']%lookup_delete_Some. congruence.
Qed.

Lemma invalidateAll_never_shortens (userId : string) (w : World) k s s' :
  sessions w !! k = Some s ->
  sessions (AuthService.invalidateAllUserSessions userId w).2 !! k = Some s' ->
  s' = s.
Proof.
  intros Hk. exec. destruct (faults w (ops w)); world_simpl.
  - congruence.
  - intros [Hk' _]%map_lookup_filter_Some. congruence.
Qed.

(** * The claims *)

(** C1. Sliding expiration. An accepted session that still has more than
    half of the seven-day lifetime left (measured at the clock reading the
    code takes for [timeUntilExpiry]) keeps its stored expiry; one with less
    than half left has its stored expiry strictly increased, to the next
    clock reading plus the lifetime. And no operation of the session service
    (create, validate, invalidate, invalidate-all) leaves a session that was
    in the store with an earlier expiry than it had. The wall clock is
    assumed not to run backwards. *)
Theorem sliding_expiry_only_moves_forward (w : World) (Hclock : monotone_clock w) :
  (forall tok s u,
      healthy w -> tok <> "" ->
      sessions w !! tok = Some s ->
      users w !! ISession.user_id s = Some u ->
      clock w (ticks w) <= ISession.active_expires s ->
      let remaining := ISession.active_expires s - clock w (S (ticks w)) in
      let now := clock w (S (S (ticks w))) in
      let out := AuthService.validateSession tok w in
      out.1 = inr (accepted s u) /\
      (AuthService.SESSION_DURATION / 2 < remaining ->
       sessions out.2 !! tok = Some s) /\
      (remaining < AuthService.SESSION_DURATION / 2 ->
       sessions out.2 !! tok = Some (extended now s) /\
       ISession.active_expires (extended now s) = now + AuthService.SESSION_DURATION /\
       ISession.active_expires s < ISession.active_expires (extended now s)))
  /\
  (forall k s s',
      sessions w !! k = Some s ->
      (forall userId,
          sessions (AuthService.createSession userId w).2 !! k = Some s' ->
          ISession.active_expires s <= ISession.active_expires s') /\
      (forall tok,
          sessions (AuthService.validateSession tok w).2 !! k = Some s' ->
          ISession.active_expires s <= ISession.active_expires s') /\
      (forall tok,
          sessions (AuthService.invalidateSession tok w).2 !! k = Some s' ->
          ISession.active_expires s <= ISession.active_expires s') /\
      (forall userId,
          sessions (AuthService.invalidateAllUserSessions userId w).2 !! k = Some s' ->
          ISession.active_expires s <= ISession.active_expires s')).
Proof.
  split.
  - intros tok s u Hh Htok Hs Hu Hlive remaining now out. subst remaining now out.
    destruct (Z.lt_ge_cases
                (ISession.active_expires s - clock w (S (ticks w)))
                (AuthService.SESSION_DURATION / 2)) as [Hlt | Hge].
    + rewrite (validate_extend w tok s Hh Htok Hs u Hu Hlive Hlt).
      split; [reflexivity |]. split; [lia |]. intros _.
      unfold set_sessions, advance, set_ops, set_ticks. world_simpl.
      rewrite lookup_alter_eq, Hs. split; [reflexivity |].
      unfold extended. world_simpl. split; [reflexivity |].
      pose proof (Hclock (S (ticks w)) (S (S (ticks w))) ltac:(lia)).
      rewrite half_duration in Hlt. rewrite duration_value. lia.
    + rewrite (validate_keep w tok s Hh Htok Hs u Hu Hlive Hge).
      split; [reflexivity |]. split; [| lia]. intros _.
      unfold advance, set_ops, set_ticks. world_simpl. exact Hs.
  - intros k s s' Hk. repeat split.
    + intros userId Hk'.
      rewrite (createSession_preserves userId w k s Hk) in Hk'.
      assert (s' = s) by congruence. subst. lia.
    + intros tok Hk'. eapply validateSession_never_shortens; eauto.
    + intros tok Hk'.
      rewrite (invalidateSession_never_shortens tok w k s s' Hk Hk'). lia.
    + intros userId Hk'.
      rewrite (invalidateAll_never_shortens userId w k s s' Hk Hk'). lia.
Qed.

Lemma ticking_monotone ss : monotone_clock (Scenario.world_with ss Scenario.ticking).
Proof. intros i j Hij. unfold Scenario.world_with, Scenario.ticking. world_simpl. lia. Qed.

Lemma scenario_healthy ss now : healthy (Scenario.world_with ss now).
Proof. intros k. reflexivity. Qed.

(** The ageing session of the scenario slides from one day left to seven. *)
Lemma sliding_expiry_only_moves_forward_witness :
  let w := Scenario.world_with Scenario.ageing Scenario.ticking in
  sessions (AuthService.validateSession "tok" w).2 !! "tok"
  = Some (Scenario.session_of "tok" "u-ana" (Scenario.t0 + 2 + 7 * Scenario.day)).
Proof.
  intros w.
  destruct (sliding_expiry_only_moves_forward w (ticking_monotone _)) as [Hslide _].
  destruct (Hslide "tok" (Scenario.session_of "tok" "u-ana" (Scenario.t0 + Scenario.day))
              Scenario.ana (scenario_healthy _ _) ltac:(discriminate)
              ltac:(reflexivity) ltac:(reflexivity) ltac:(vm_compute; discriminate))
    as (_ & _ & Hext).
  destruct (Hext ltac:(vm_compute; reflexivity)) as [Hstored _].
  exact Hstored.
Defined.

(** C2, as stated, fails on the boundary: a session whose expiry equals the
    current clock reading is not expired for the code's strict comparison
    [active_expires < Date.now()]; it is accepted, stays in the store and is
    even extended. *)
Lemma expiry_equal_to_now_is_accepted :
  let w := Scenario.world_with Scenario.edge Scenario.frozen in
  let s := Scenario.session_of "tok" "u-ana" Scenario.t0 in
  healthy w /\
  sessions w !! "tok" = Some s /\
  ISession.active_expires s <= clock w (ticks w) /\
  (AuthService.validateSession "tok" w).1 = inr (accepted s Scenario.ana) /\
  (AuthService.validateSession "tok" w).1 <> inr AuthService.rejected /\
  sessions (AuthService.validateSession "tok" w).2 !! "tok"
  = Some (Scenario.session_of "tok" "u-ana" (Scenario.t0 + 7 * Scenario.day)).
Proof.
  intros w s. split; [apply scenario_healthy |].
  split; [reflexivity |]. split; [vm_compute; discriminate |].
  split; [vm_compute; reflexivity |]. split; [vm_compute; discriminate |].
  vm_compute. reflexivity.
Qed.

(** C2, amended. A stored session whose expiry lies strictly before the
    current clock reading is deleted by [validateSession], which returns
    [{null, null}]; the session is absent afterwards and validating the same
    token again returns [{null, null}] again. *)
Theorem expired_session_is_evicted (w : World) (tok : string) (s : ISession.t) :
  healthy w -> tok <> "" ->
  sessions w !! tok = Some s ->
  ISession.active_expires s < clock w (ticks w) ->
  let out := AuthService.validateSession tok w in
  out.1 = inr AuthService.rejected /\
  sessions out.2 = delete tok (sessions w) /\
  sessions out.2 !! tok = None /\
  (AuthService.validateSession tok out.2).1 = inr AuthService.rejected.
Proof.
  intros Hh Htok Hs Hexp out. subst out.
  rewrite (validate_expired w tok s Hh Htok Hs Hexp).
  assert (Hgone : sessions (set_sessions (delete tok) (advance 1 2 w)) !! tok = None).
  { unfold set_sessions, advance, set_ops, set_ticks. world_simpl. apply lookup_delete_eq. }
  repeat split; auto.
  apply validateSession_absent. exact Hgone.
Qed.

Lemma expired_session_is_evicted_witness :
  let w := Scenario.world_with Scenario.lapsed Scenario.ticking in
  (AuthService.validateSession "tok" w).1 = inr AuthService.rejected /\
  sessions (AuthService.validateSession "tok" w).2 !! "tok" = None.
Proof.
  intros w.
  destruct (expired_session_is_evicted w "tok"
              (Scenario.session_of "tok" "u-ana" (Scenario.t0 - 1000))
              (scenario_healthy _ _) ltac:(discriminate) ltac:(reflexivity)
              ltac:(vm_compute; reflexivity))
    as (Hr & _ & Hgone & _).
  split; assumption.
Defined.

(** C6. A stored, unexpired session whose owner cannot be found is deleted by
    [validateSession], which returns [{null, null}]: the orphan does not
    survive the validation, and no other session is touched. *)
Theorem orphaned_session_is_evicted (w : World) (tok : string) (s : ISession.t) :
  healthy w -> tok <> "" ->
  sessions w !! tok = Some s ->
  clock w (ticks w) <= ISession.active_expires s ->
  users w !! ISession.user_id s = None ->
  let out := AuthService.validateSession tok w in
  out.1 = inr AuthService.rejected /\
  sessions out.2 !! tok = None /\
  (forall k, k <> tok -> sessions out.2 !! k = sessions w !! k).
Proof.
  intros Hh Htok Hs Hlive Hu out. subst out.
  rewrite (validate_orphan w tok s Hh Htok Hs Hlive Hu).
  unfold set_sessions, advance, set_ops, set_ticks. world_simpl.
  split; [reflexivity |]. split; [apply lookup_delete_eq |].
  intros k Hk. apply lookup_delete_ne. congruence.
Qed.

Lemma orphaned_session_is_evicted_witness :
  let w := Scenario.world_with Scenario.orphan Scenario.ticking in
  (AuthService.validateSession "tok" w).1 = inr AuthService.rejected /\
  sessions (AuthService.validateSession "tok" w).2 !! "tok" = None.
Proof.
  intros w.
  destruct (orphaned_session_is_evicted w "tok"
              (Scenario.session_of "tok" "u-gone" (Scenario.t0 + 6 * Scenario.day))
              (scenario_healthy _ _) ltac:(discriminate) ltac:(reflexivity)
              ltac:(vm_compute; discriminate) ltac:(reflexivity))
    as (Hr & Hgone & _).
  split; assumption.
Defined.

(** C9. The session object returned by an accepting [validateSession] always
    carries the expiry read before any update. When the call slides the
    expiry (less than half the lifetime left) the store then holds the later
    reading plus the lifetime, which is strictly greater, so the returned
    expiry is stale; when it does not slide, returned and stored expiry
    agree. The returned expiry differs from the stored one exactly in the
    extension case. *)
Theorem returned_expiry_is_stale_on_extension
    (w : World) (tok : string) (s : ISession.t) (u : IUser.t) :
  monotone_clock w -> healthy w -> tok <> "" ->
  sessions w !! tok = Some s ->
  users w !! ISession.user_id s = Some u ->
  clock w (ticks w) <= ISession.active_expires s ->
  let remaining := ISession.active_expires s - clock w (S (ticks w)) in
  let now := clock w (S (S (ticks w))) in
  let out := AuthService.validateSession tok w in
  exists data projection stored,
    out.1 = inr (Some data, Some projection) /\
    sessions out.2 !! tok = Some stored /\
    SessionData.expiresAt data = ISession.active_expires s /\
    (remaining < AuthService.SESSION_DURATION / 2 ->
     ISession.active_expires stored = now + AuthService.SESSION_DURATION /\
     SessionData.expiresAt data < ISession.active_expires stored) /\
    (SessionData.expiresAt data <> ISession.active_expires stored <->
     remaining < AuthService.SESSION_DURATION / 2).
Proof.
  intros Hclock Hh Htok Hs Hu Hlive remaining now out. subst remaining now out.
  destruct (Z.lt_ge_cases
              (ISession.active_expires s - clock w (S (ticks w)))
              (AuthService.SESSION_DURATION / 2)) as [Hlt | Hge].
  - rewrite (validate_extend w tok s Hh Htok Hs u Hu Hlive Hlt).
    unfold accepted. do 2 eexists. exists (extended (clock w (S (S (ticks w)))) s).
    unfold set_sessions, advance, set_ops, set_ticks. world_simpl.
    rewrite lookup_alter_eq, Hs.
    pose proof (Hclock (S (ticks w)) (S (S (ticks w))) ltac:(lia)) as Hmono.
    assert (ISession.active_expires s
            < clock w (S (S (ticks w))) + AuthService.SESSION_DURATION).
    { rewrite half_duration in Hlt. rewrite duration_value. lia. }
    unfold extended. world_simpl. repeat split; auto; world_simpl; lia.
  - rewrite (validate_keep w tok s Hh Htok Hs u Hu Hlive Hge).
    unfold accepted. do 2 eexists. exists s.
    unfold advance, set_ops, set_ticks. world_simpl.
    repeat split; auto; world_simpl; lia.
Qed.

Lemma returned_expiry_is_stale_on_extension_witness :
  let w := Scenario.world_with Scenario.ageing Scenario.ticking in
  exists data stored,
    (AuthService.validateSession "tok" w).1 = inr (Some data, Some (SessionUser.mk "u-ana" "ana@clinic.test" "doctor")) /\
    sessions (AuthService.validateSession "tok" w).2 !! "tok" = Some stored /\
    SessionData.expiresAt data < ISession.active_expires stored.
Proof.
  intros w.
  destruct (returned_expiry_is_stale_on_extension w "tok"
              (Scenario.session_of "tok" "u-ana" (Scenario.t0 + Scenario.day))
              Scenario.ana (ticking_monotone _) (scenario_healthy _ _)
              ltac:(discriminate) ltac:(reflexivity) ltac:(reflexivity)
              ltac:(vm_compute; discriminate))
    as (data & projection & stored & Hr & Hst & _ & Hext & _).
  destruct (Hext ltac:(vm_compute; reflexivity)) as [_ Hstale].
  exists data, stored. split; [| split; assumption].
  rewrite Hr. vm_compute in Hr. injection Hr as _ <-. reflexivity.
Defined.

(** C3. Whatever the store does, [validateSession] resolves and never
    rejects; whenever a store operation issued during the call fails, it
    resolves with [{null, null}]. The identity-resolution hook likewise
    always completes, for any validation function, and when the validation
    call throws it leaves the request with no user and no session. *)
Theorem validation_faults_degrade_to_anonymous :
  (forall tok w,
      exists r w',
        AuthService.validateSession tok w = (inr r, w') /\
        ((exists k, (ops w <= k < ops w')%nat /\ faults w k = true) ->
         r = AuthService.rejected))
  /\
  (forall validate request w,
      exists request' w',
        preHandler_with validate request w = (inr request', w') /\
        (forall tok e w1,
            cookies request ≫= (fun jar => jar !! "session") = Some tok ->
            tok <> "" ->
            validate tok w = (inl e, w1) ->
            user request' = None /\ session request' = None /\ w' = w1)).
Proof.
  split.
  - intros tok w.
    pose proof (validateSession_cases tok w) as Hcases. cbv zeta in Hcases.
    destruct (AuthService.validateSession tok w) as [r w'] eqn:Hrun.
    world_simpl.
    destruct Hcases as [[Hr _] | (s & u & _ & _ & _ & F0 & F1 & Hr & Hw)].
    + subst r. eexists _, w'. split; [reflexivity |]. auto.
    + subst r. eexists _, w'. split; [reflexivity |].
      intros (k & Hk & Hfault). exfalso.
      destruct Hw as [[_ ->] | (_ & F2 & ->)];
        unfold set_sessions, advance, set_ops, set_ticks in Hk; world_simpl.
      * assert (k = ops w \/ k = S (ops w)) as [-> | ->] by lia; congruence.
      * assert (k = ops w \/ k = S (ops w) \/ k = S (S (ops w)))
          as [-> | [-> | ->]] by lia; congruence.
  - intros validate request w. unfold preHandler_with, try_catch.
    destruct (cookies request ≫= (fun jar => jar !! "session")) as [tok |] eqn:Hjar;
      cbn [or_default].
    + destruct (truthy tok) eqn:Htruthy.
      * rewrite Htruthy. unfold mbind, M_bind, mret, M_ret. cbn [negb].
        destruct (validate tok w) as [[e | r] w1] eqn:Hrun.
        -- eexists _, w1. split; [reflexivity |].
           intros tok' e' w1' [= <-] _ Hrun'. rewrite Hrun in Hrun'.
           injection Hrun' as _ <-. auto.
        -- eexists _, w1. split; [reflexivity |].
           intros tok' e' w1' [= <-] _ Hrun'. congruence.
      * unfold mret, M_ret. cbn. eexists _, w. split; [reflexivity |].
        intros tok' e' w1' [= <-] Hne _. apply truthy_false in Htruthy. contradiction.
    + unfold mret, M_ret. cbn. eexists _, w. split; [reflexivity |].
      intros tok' e' w1' Hjar'. discriminate.
Qed.

Lemma validation_faults_degrade_to_anonymous_witness :
  let w := Scenario.flaky_world Scenario.fresh in
  (AuthService.validateSession "tok" w).1 = inr AuthService.rejected /\
  (exists request' w',
      preHandler_with Scenario.broken_validate (Scenario.presenting "tok") w
      = (inr request', w') /\
      user request' = None /\ session request' = None).
Proof.
  intros w.
  destruct validation_faults_degrade_to_anonymous as [Hservice Hhook].
  split.
  - destruct (Hservice "tok" w) as (r & w' & Hrun & Hfault).
    rewrite Hrun. cbn [fst]. f_equal. apply Hfault.
    exists 1%nat. split; [| reflexivity].
    replace w' with (AuthService.validateSession "tok" w).2 by (rewrite Hrun; reflexivity).
    replace (ops (AuthService.validateSession "tok" w).2) with 2%nat
      by (vm_compute; reflexivity).
    cbn. lia.
  - destruct (Hhook Scenario.broken_validate (Scenario.presenting "tok") w)
      as (request' & w' & Hrun & Hcatch).
    exists request', w'. split; [exact Hrun |].
    destruct (Hcatch "tok" OtherError w ltac:(reflexivity) ltac:(discriminate)
                ltac:(reflexivity)) as (Hu & Hs & _).
    split; assumption.
Defined.

(** ** Looking a user up by e-mail *)

Lemma first_with_email_Some (e : string) (m : gmap string IUser.t) (u : IUser.t) :
  first_with_email e m = Some u -> exists k, m !! k = Some u /\ IUser.email u = e.
Proof.
  unfold first_with_email. intros [Hin Heq]%find_some.
  apply in_map_iff in Hin as ([k u'] & Hsnd & Hin). cbn in Hsnd. subst u'.
  apply list_elem_of_In, elem_of_map_to_list in Hin.
  exists k. split; [exact Hin |]. apply String.eqb_eq. exact Heq.
Qed.

Lemma first_with_email_None (e : string) (m : gmap string IUser.t) :
  (forall k u, m !! k = Some u -> IUser.email u <> e) -> first_with_email e m = None.
Proof.
  intros Hno. destruct (first_with_email e m) as [u |] eqn:Hfound; [| reflexivity].
  apply first_with_email_Some in Hfound as (k & Hk & He).
  exfalso. exact (Hno k u Hk He).
Qed.

Lemma first_with_email_found (e : string) (m : gmap string IUser.t) k u :
  m !! k = Some u -> IUser.email u = e -> exists u', first_with_email e m = Some u'.
Proof.
  intros Hk He. destruct (first_with_email e m) as [u' |] eqn:Hfound; [eauto |].
  exfalso. unfold first_with_email in Hfound.
  pose proof (find_none _ _ Hfound u) as Hnone. cbn beta in Hnone.
  assert (In u (map snd (map_to_list m))) as Hin.
  { apply in_map_iff. exists (k, u). split; [reflexivity |].
    apply list_elem_of_In, elem_of_map_to_list. exact Hk. }
  apply Hnone in Hin. apply String.eqb_neq in Hin. contradiction.
Qed.

(** ** Runs of the login route *)

Ltac unfold_routes :=
  unfold login, signup, logout, me, verify, hash, in_production, truthy_opt in *.

Section LoginRuns.

Variable argon2_verify : string -> string -> option bool.
Variables (w : World) (req : FastifyRequest) (e p : string).
Hypothesis Hanswer : faults w (ops w) = false.
Hypothesis Hemail : Body.email (body req) = Some e.
Hypothesis Hpassword : Body.password (body req) = Some p.
Hypothesis He : e <> "".
Hypothesis Hp : p <> "".

Lemma login_unknown_email :
  first_with_email e (users w) = None ->
  login argon2_verify req w = (inr invalid_credentials, set_ops (S (ops w)) w).
Proof.
  intros Hnone. unfold_routes. exec. rewrite Hemail, Hpassword.
  cbn [default from_option id]. rewrite (truthy_true _ He), (truthy_true _ Hp). world_simpl.
  rewrite Hanswer. world_simpl. rewrite Hnone. reflexivity.
Qed.

Lemma login_wrong_password (u : IUser.t) :
  first_with_email e (users w) = Some u ->
  argon2_verify (IUser.hashed_password u) p = Some false ->
  login argon2_verify req w = (inr invalid_credentials, set_ops (S (ops w)) w).
Proof.
  intros Hfound Hverify. unfold_routes. exec. rewrite Hemail, Hpassword.
  cbn [default from_option id]. rewrite (truthy_true _ He), (truthy_true _ Hp). world_simpl.
  rewrite Hanswer. world_simpl. rewrite Hfound, Hverify. reflexivity.
Qed.

Lemma login_malformed_digest (u : IUser.t) :
  first_with_email e (users w) = Some u ->
  argon2_verify (IUser.hashed_password u) p = None ->
  login argon2_verify req w = (inr failed_to_login, set_ops (S (ops w)) w).
Proof.
  intros Hfound Hverify. unfold_routes. exec. rewrite Hemail, Hpassword.
  cbn [default from_option id]. rewrite (truthy_true _ He), (truthy_true _ Hp). world_simpl.
  rewrite Hanswer. world_simpl. rewrite Hfound, Hverify. reflexivity.
Qed.

End LoginRuns.

Lemma first_with_email_None_inv (e : string) (m : gmap string IUser.t) :
  first_with_email e m = None -> forall k u, m !! k = Some u -> IUser.email u <> e.
Proof.
  intros Hnone k u Hk He.
  destruct (first_with_email_found e m k u Hk He) as [u' Hfound]. congruence.
Qed.

Lemma staff_members k u :
  Scenario.staff !! k = Some u -> u = Scenario.ana \/ u = Scenario.eva.
Proof.
  unfold Scenario.staff.
  intros [[_ <-] | [_ [[_ <-] | [_ Hk]]%lookup_insert_Some]]%lookup_insert_Some; auto.
  rewrite lookup_empty in Hk. discriminate.
Qed.

(** C4. A login with an e-mail that no user has and a login with a
    registered e-mail whose password fails verification get the same reply:
    status 401 with error kind "Unauthorized" and message "Invalid
    credentials" (both requests carry a non-empty e-mail and password, and
    the store answers the lookup). *)
Theorem login_hides_which_credential_failed
    (argon2_verify : string -> string -> option bool)
    (w1 w2 : World) (req1 req2 : FastifyRequest) (e1 p1 e2 p2 : string) :
  faults w1 (ops w1) = false ->
  faults w2 (ops w2) = false ->
  Body.email (body req1) = Some e1 -> Body.password (body req1) = Some p1 ->
  Body.email (body req2) = Some e2 -> Body.password (body req2) = Some p2 ->
  e1 <> "" -> p1 <> "" -> e2 <> "" -> p2 <> "" ->
  (forall k u, users w1 !! k = Some u -> IUser.email u <> e1) ->
  (exists k u, users w2 !! k = Some u /\ IUser.email u = e2) ->
  (forall k u, users w2 !! k = Some u -> IUser.email u = e2 ->
               argon2_verify (IUser.hashed_password u) p2 = Some false) ->
  (login argon2_verify req1 w1).1 = (login argon2_verify req2 w2).1 /\
  (login argon2_verify req1 w1).1
  = inr (mkReply 401 (ErrorPayload "Unauthorized" "Invalid credentials") []).
Proof.
  intros F1 F2 He1 Hp1 He2 Hp2 Ne1 Np1 Ne2 Np2 Hunknown (k & u & Hk & Hu) Hwrong.
  rewrite (login_unknown_email argon2_verify w1 req1 e1 p1 F1 He1 Hp1 Ne1 Np1
             (first_with_email_None _ _ Hunknown)).
  destruct (first_with_email_found e2 (users w2) k u Hk Hu) as [u' Hfound].
  destruct (first_with_email_Some _ _ _ Hfound) as (k' & Hk' & Hu').
  rewrite (login_wrong_password argon2_verify w2 req2 e2 p2 F2 He2 Hp2 Ne2 Np2 u' Hfound
             (Hwrong k' u' Hk' Hu')).
  split; reflexivity.
Qed.

Lemma login_hides_which_credential_failed_witness :
  let w := Scenario.world_with ∅ Scenario.ticking in
  (login Scenario.ref_verify (Scenario.credentials "nobody@clinic.test" "anything" None) w).1
  = (login Scenario.ref_verify (Scenario.credentials "ana@clinic.test" "wrong" None) w).1.
Proof.
  intros w.
  refine (proj1 (login_hides_which_credential_failed Scenario.ref_verify w w
                   (Scenario.credentials "nobody@clinic.test" "anything" None)
                   (Scenario.credentials "ana@clinic.test" "wrong" None)
                   "nobody@clinic.test" "anything" "ana@clinic.test" "wrong"
                   eq_refl eq_refl eq_refl eq_refl eq_refl eq_refl
                   _ _ _ _ _ _ _)); try discriminate.
  - apply first_with_email_None_inv. vm_compute. reflexivity.
  - exists "u-ana", Scenario.ana. split; reflexivity.
  - intros k u [-> | ->]%staff_members; [reflexivity | discriminate].
Defined.

(** C5, as stated, fails: when the stored digest is malformed and [verify]
    rejects, the route's [catch] answers 500 "Internal Server Error", not the
    401 invalid-credentials reply. *)
Lemma malformed_digest_answers_500 :
  let w := Scenario.world_with ∅ Scenario.ticking in
  let req := Scenario.credentials "eva@clinic.test" "whatever" None in
  users w !! "u-eva" = Some Scenario.eva /\
  IUser.email Scenario.eva = "eva@clinic.test" /\
  Scenario.ref_verify (IUser.hashed_password Scenario.eva) "whatever" = None /\
  (login Scenario.ref_verify req w).1
  = inr (mkReply 500 (ErrorPayload "Internal Server Error" "Failed to login") []) /\
  (login Scenario.ref_verify req w).1
  <> inr (mkReply 401 (ErrorPayload "Unauthorized" "Invalid credentials") []).
Proof.
  intros w req. repeat split; try reflexivity. vm_compute. discriminate.
Qed.

(** C5, amended. For a login against a user record whose stored digest is
    malformed, so that [verify] rejects instead of returning a boolean, the
    error is caught by the route: the reply is 500 with error kind "Internal
    Server Error" and message "Failed to login", no session is created and
    the handler itself resolves. *)
Theorem malformed_digest_is_an_internal_error
    (argon2_verify : string -> string -> option bool)
    (w : World) (req : FastifyRequest) (e p : string) :
  faults w (ops w) = false ->
  Body.email (body req) = Some e -> Body.password (body req) = Some p ->
  e <> "" -> p <> "" ->
  (exists k u, users w !! k = Some u /\ IUser.email u = e) ->
  (forall k u, users w !! k = Some u -> IUser.email u = e ->
               argon2_verify (IUser.hashed_password u) p = None) ->
  let out := login argon2_verify req w in
  out.1 = inr (mkReply 500 (ErrorPayload "Internal Server Error" "Failed to login") []) /\
  sessions out.2 = sessions w /\ users out.2 = users w.
Proof.
  intros F He Hp Ne Np (k & u & Hk & Hu) Hbad out. subst out.
  destruct (first_with_email_found e (users w) k u Hk Hu) as [u' Hfound].
  destruct (first_with_email_Some _ _ _ Hfound) as (k' & Hk' & Hu').
  rewrite (login_malformed_digest argon2_verify w req e p F He Hp Ne Np u' Hfound
             (Hbad k' u' Hk' Hu')).
  repeat split.
Qed.

Lemma malformed_digest_is_an_internal_error_witness :
  let w := Scenario.world_with ∅ Scenario.ticking in
  (login Scenario.ref_verify (Scenario.credentials "eva@clinic.test" "whatever" None) w).1
  = inr failed_to_login.
Proof.
  intros w.
  refine (proj1 (malformed_digest_is_an_internal_error Scenario.ref_verify w
                   (Scenario.credentials "eva@clinic.test" "whatever" None)
                   "eva@clinic.test" "whatever"
                   eq_refl eq_refl eq_refl _ _ _ _)); try discriminate.
  - exists "u-eva", Scenario.eva. split; reflexivity.
  - intros k u [-> | ->]%staff_members; [discriminate | reflexivity].
Defined.

(** ** The gate *)

Lemma includes_elem_of (roles : list string) (role : string) :
  includes roles role = true <-> role ∈ roles.
Proof.
  unfold includes. rewrite existsb_exists, list_elem_of_In. split.
  - intros (r & Hin & Heq). apply String.eqb_eq in Heq. subst. exact Hin.
  - intros Hin. exists role. split; [exact Hin | apply String.eqb_refl].
Qed.

(** C7. The authorization gate computes the decision the specification
    describes from the resolved identity and the required roles alone, and
    leaves the world as it found it (no store operation, no state change):
    no identity gives 401 "Authentication required"; an identity whose role
    is not in a non-empty role set gives 403 "Insufficient permissions";
    every other case, including an empty or absent role set, lets the
    request through. *)
Theorem authorization_gate_is_a_pure_decision
    (roles : option (list string)) (request : FastifyRequest) (w : World) :
  requireAuth roles request w = (inr (gate_reply (gate_spec (user request) roles)), w)
  /\
  (user request = None ->
   requireAuth roles request w
   = (inr (Some (mkReply 401 (ErrorPayload "Unauthorized" "Authentication required") [])), w))
  /\
  (forall u rs,
      user request = Some u -> roles = Some rs -> rs <> [] ->
      SessionUser.role u ∉ rs ->
      requireAuth roles request w
      = (inr (Some (mkReply 403 (ErrorPayload "Forbidden" "Insufficient permissions") [])), w))
  /\
  (forall u,
      user request = Some u ->
      roles = None \/ roles = Some [] \/
      (exists rs, roles = Some rs /\ SessionUser.role u ∈ rs) ->
      requireAuth roles request w = (inr None, w)).
Proof.
  assert (Hspec : requireAuth roles request w
                  = (inr (gate_reply (gate_spec (user request) roles)), w)).
  { unfold requireAuth, gate_spec, mret, M_ret.
    destruct (user request) as [u |]; [| reflexivity].
    destruct roles as [[| r rs] |]; try reflexivity.
    change (0 <? Z.of_nat (length (r :: rs))) with true. cbn [andb].
    destruct (includes (r :: rs) (SessionUser.role u)) eqn:Hinc; cbn [negb].
    - apply includes_elem_of in Hinc. rewrite bool_decide_eq_true_2; auto.
    - rewrite bool_decide_eq_false_2; [reflexivity |].
      intros Hin. apply includes_elem_of in Hin. congruence. }
  split; [exact Hspec |]. rewrite Hspec. unfold gate_spec. repeat split.
  - intros ->. reflexivity.
  - intros u [| r rs] -> -> Hne Hnotin; [contradiction |].
    rewrite bool_decide_eq_false_2; auto.
  - intros u -> [-> | [-> | (rs & -> & Hin)]]; try reflexivity.
    destruct rs as [| r rs]; [reflexivity |].
    rewrite bool_decide_eq_true_2; auto.
Qed.

Lemma authorization_gate_is_a_pure_decision_witness :
  let w := Scenario.world_with Scenario.fresh Scenario.ticking in
  let nurse := mkRequest (Body.mk None None None) None
                 (Some (SessionUser.mk "u-eva" "eva@clinic.test" "nurse")) None in
  requireAuth (Some ["admin"; "doctor"]) nurse w
  = (inr (Some (mkReply 403 (ErrorPayload "Forbidden" "Insufficient permissions") [])), w)
  /\ requireAuth (Some []) nurse w = (inr None, w).
Proof.
  intros w nurse.
  destruct (authorization_gate_is_a_pure_decision (Some ["admin"; "doctor"]) nurse w)
    as (_ & _ & Hforbidden & _).
  destruct (authorization_gate_is_a_pure_decision (Some []) nurse w)
    as (_ & _ & _ & Hallow).
  split.
  - apply (Hforbidden (SessionUser.mk "u-eva" "eva@clinic.test" "nurse")
             ["admin"; "doctor"]); try reflexivity; [discriminate |].
    intros Hin. apply includes_elem_of in Hin. discriminate.
  - apply (Hallow (SessionUser.mk "u-eva" "eva@clinic.test" "nurse")); auto.
Defined.

(** C8. When the store answers, [invalidateAllUserSessions userId] removes
    exactly the sessions owned by [userId]: afterwards no session of that
    user is left, every session of another user is still there unchanged,
    nothing is added, and the users are untouched. *)
Theorem invalidateAllUserSessions_removes_exactly (userId : string) (w : World) :
  faults w (ops w) = false ->
  let out := AuthService.invalidateAllUserSessions userId w in
  out.1 = inr tt /\
  (forall k s, sessions out.2 !! k = Some s -> ISession.user_id s <> userId) /\
  (forall k s, sessions w !! k = Some s -> ISession.user_id s = userId ->
               sessions out.2 !! k = None) /\
  (forall k s, sessions w !! k = Some s -> ISession.user_id s <> userId ->
               sessions out.2 !! k = Some s) /\
  (forall k, sessions w !! k = None -> sessions out.2 !! k = None) /\
  users out.2 = users w.
Proof.
  intros F out. subst out. exec. rewrite F. world_simpl. repeat split.
  - intros k s [_ Hkeep]%map_lookup_filter_Some. exact Hkeep.
  - intros k s Hk Hown. apply map_lookup_filter_None. right.
    intros s' Hk' Hkeep. cbn in Hkeep. congruence.
  - intros k s Hk Hother. apply map_lookup_filter_Some. split; [exact Hk | exact Hother].
  - intros k Hk. apply map_lookup_filter_None. left. exact Hk.
Qed.

Lemma invalidateAllUserSessions_removes_exactly_witness :
  let w := Scenario.world_with Scenario.ward Scenario.ticking in
  let w' := (AuthService.invalidateAllUserSessions "u-ana" w).2 in
  sessions w' !! "a1" = None /\ sessions w' !! "a2" = None /\
  sessions w' !! "e1" = Some (Scenario.session_of "e1" "u-eva" (Scenario.t0 + 2 * Scenario.day)).
Proof.
  intros w w'.
  destruct (invalidateAllUserSessions_removes_exactly "u-ana" w eq_refl)
    as (_ & _ & Hgone & Hkept & _).
  split; [| split].
  - apply (Hgone "a1" (Scenario.session_of "a1" "u-ana" (Scenario.t0 + Scenario.day)));
      reflexivity.
  - apply (Hgone "a2" (Scenario.session_of "a2" "u-ana" (Scenario.t0 + 3 * Scenario.day)));
      reflexivity.
  - apply (Hkept "e1"); [reflexivity | discriminate].
Defined.

(** ** Identifiers drawn from [crypto] are never empty *)

Lemma entropy_S (source : nat -> byte) (from n : nat) :
  entropy source from (S n) = Byte.to_N (source from) :: entropy source (S from) n.
Proof. reflexivity. Qed.

Lemma toString_hex_truthy (b : N) (bs : list N) : truthy (toString_hex (b :: bs)) = true.
Proof. reflexivity. Qed.

Lemma uuid_truthy (bs : list N) : truthy (uuid_of_octets bs) = true.
Proof.
  unfold uuid_of_octets. cbv zeta.
  destruct (toString_hex (take 4 (drop 0 _))); reflexivity.
Qed.

(** ** The successful run of the sign-up route *)

Section SignupRuns.

Variable argon2_hash : list N -> string -> option string.
Variables (w : World) (req : FastifyRequest) (e p digest : string).
Hypothesis Hhealthy : healthy w.
Hypothesis Hemail : Body.email (body req) = Some e.
Hypothesis Hpassword : Body.password (body req) = Some p.
Hypothesis He : e <> "".
Hypothesis Hp : p <> "".
Hypothesis Hnew : first_with_email e (users w) = None.
Hypothesis Hhash : argon2_hash (entropy (rng w) (drawn w) 16) p = Some digest.
Hypothesis Hdigest : digest <> "".

Let userId := uuid_of_octets (entropy (rng w) (drawn w + 16) 16).
Let sessionId := toString_hex (entropy (rng w) (drawn w + 16 + 16) 32).
Let granted := or_default (Body.role (body req)) "assistant".

Hypothesis Hfree_user : users w !! userId = None.
Hypothesis Hfree_session : sessions w !! sessionId = None.

Lemma signup_creates :
  signup argon2_hash req w
  = (inr (mkReply 201
            (AccountPayload "User created successfully"
               (SessionUser.mk userId e granted))
            [SetCookie (AuthService.createSessionCookie sessionId
                          (String.eqb (NODE_ENV w) "production"))]),
     mkWorld (<[userId := IUser.mk userId e digest granted]> (users w))
       (<[sessionId := ISession.mk sessionId userId
                         (clock w (ticks w) + AuthService.SESSION_DURATION)
                         (clock w (ticks w) + AuthService.SESSION_DURATION)]>
          (sessions w))
       (clock w) (S (ticks w)) (faults w) (S (S (S (ops w))))
       (rng w) (drawn w + 16 + 16 + 32) (NODE_ENV w)).
Proof.
  subst userId sessionId granted. unfold_routes. exec.
  rewrite Hemail, Hpassword. cbn [default from_option id].
  rewrite (truthy_true _ He), (truthy_true _ Hp). world_simpl.
  answered Hhealthy. rewrite Hnew. world_simpl. rewrite Hhash. world_simpl.
  rewrite uuid_truthy, (truthy_true _ Hdigest).
  answered Hhealthy. rewrite Hfree_user, Hnew. world_simpl.
  rewrite (entropy_S (rng w) (drawn w + 16 + 16) 31), toString_hex_truthy.
  answered Hhealthy.
  rewrite <- (entropy_S (rng w) (drawn w + 16 + 16) 31), Hfree_session. world_simpl.
  reflexivity.
Qed.

End SignupRuns.

(** C10. The public sign-up route takes the role from the request body as
    it comes, whoever sends the request (no identity is consulted): when the
    body carries a role [r] among admin, doctor, nurse and assistant, the
    user written to the store and the 201 reply both carry [r], admin
    included; when the body carries no role they carry assistant. The run
    considered is the one in which the store answers, the e-mail is new,
    the hasher delivers a digest and the drawn identifiers are unused. *)
Theorem signup_grants_the_requested_role
    (argon2_hash : list N -> string -> option string)
    (w : World) (req : FastifyRequest) (e p digest r : string) :
  healthy w ->
  Body.email (body req) = Some e -> Body.password (body req) = Some p ->
  e <> "" -> p <> "" ->
  (forall k u, users w !! k = Some u -> IUser.email u <> e) ->
  argon2_hash (entropy (rng w) (drawn w) 16) p = Some digest -> digest <> "" ->
  let userId := uuid_of_octets (entropy (rng w) (drawn w + 16) 16) in
  let sessionId := toString_hex (entropy (rng w) (drawn w + 16 + 16) 32) in
  users w !! userId = None ->
  sessions w !! sessionId = None ->
  (Body.role (body req) = Some r /\ r ∈ ["admin"; "doctor"; "nurse"; "assistant"])
  \/ (Body.role (body req) = None /\ r = "assistant") ->
  let out := signup argon2_hash req w in
  (exists cookie,
      out.1 = inr (mkReply 201
                     (AccountPayload "User created successfully"
                        (SessionUser.mk userId e r))
                     [SetCookie cookie])) /\
  users out.2 !! userId = Some (IUser.mk userId e digest r).
Proof.
  intros Hh He Hp Ne Np Hnew Hhash Hd userId sessionId Hfu Hfs Hrole out.
  subst out userId sessionId.
  rewrite (signup_creates argon2_hash w req e p digest Hh He Hp Ne Np
             (first_with_email_None _ _ Hnew) Hhash Hd Hfu Hfs).
  assert (Hgranted : or_default (Body.role (body req)) "assistant" = r).
  { destruct Hrole as [[-> Hin] | [-> ->]]; [| reflexivity].
    cbn [or_default]. rewrite truthy_true; [reflexivity |].
    intros ->. apply includes_elem_of in Hin. discriminate. }
  rewrite Hgranted. world_simpl. split.
  - eexists. reflexivity.
  - apply lookup_insert_eq.
Qed.

Lemma signup_grants_the_requested_role_witness :
  let w := Scenario.world_with ∅ Scenario.ticking in
  let req := Scenario.credentials "new@clinic.test" "pw" (Some "admin") in
  let out := signup Scenario.ref_hash req w in
  (exists cookie,
      out.1 = inr (mkReply 201
                     (AccountPayload "User created successfully"
                        (SessionUser.mk "00000000-0000-4000-8000-000000000000"
                           "new@clinic.test" "admin"))
                     [SetCookie cookie])) /\
  users out.2 !! "00000000-0000-4000-8000-000000000000"
  = Some (IUser.mk "00000000-0000-4000-8000-000000000000" "new@clinic.test"
            "$ref$00000000000000000000000000000000$pw" "admin").
Proof.
  intros w req out.
  refine (signup_grants_the_requested_role Scenario.ref_hash w req
            "new@clinic.test" "pw" "$ref$00000000000000000000000000000000$pw" "admin"
            (scenario_healthy _ _) eq_refl eq_refl _ _ _ eq_refl _ eq_refl eq_refl _);
    try discriminate.
  - apply first_with_email_None_inv. vm_compute. reflexivity.
  - left. split; [reflexivity |]. apply includes_elem_of. reflexivity.
Defined.

(** * Further properties of the code *)

(** Case analysis on an undecided test of the running program whose
    scrutinee is itself free of tests. *)
Ltac branch :=
  match goal with
  | |- context [match ?x with _ => _ end] =>
    lazymatch x with
    | context [match _ with _ => _ end] => fail
    | _ => destruct x eqn:?
    end
  end; world_simpl.

(** ** The session service *)

Lemma validateSession_users (tok : string) (w : World) :
  users (AuthService.validateSession tok w).2 = users w.
Proof. exec. repeat branch; reflexivity. Qed.

Lemma validateSession_environment (tok : string) (w : World) :
  let w' := (AuthService.validateSession tok w).2 in
  clock w' = clock w /\ faults w' = faults w /\ rng w' = rng w /\
  drawn w' = drawn w /\ NODE_ENV w' = NODE_ENV w.
Proof. exec. repeat branch; auto. Qed.

(** [validateSession] works on the session of its token and on nothing
    else: the users, every other session, the entropy position and the
    environment stay as they were, whatever the store does. It never
    creates a session, and a session that survives keeps its id and its
    owner. *)
Theorem validateSession_touches_only_its_session (tok : string) (w : World) :
  let out := AuthService.validateSession tok w in
  users out.2 = users w /\
  drawn out.2 = drawn w /\
  (forall k, k <> tok -> sessions out.2 !! k = sessions w !! k) /\
  (sessions w !! tok = None -> sessions out.2 !! tok = None) /\
  (forall s', sessions out.2 !! tok = Some s' ->
     exists s, sessions w !! tok = Some s /\
               ISession._id s' = ISession._id s /\
               ISession.user_id s' = ISession.user_id s).
Proof.
  intros out. subst out.
  split; [apply validateSession_users |].
  split; [apply validateSession_environment |].
  destruct (validateSession_cases tok w)
    as [[_ [Hsame | Hdel]] | (x & u & Hx & _ & _ & _ & _ & _ & [[_ Hw] | (_ & _ & Hw)])].
  - rewrite Hsame. repeat split; auto. intros s' Hs'. exists s'. auto.
  - rewrite Hdel. repeat split.
    + intros k Hk. apply lookup_delete_ne. congruence.
    + intros _. apply lookup_delete_eq.
    + intros s' Hs'. rewrite lookup_delete_eq in Hs'. discriminate.
  - rewrite Hw. unfold advance, set_ops, set_ticks. world_simpl.
    repeat split; auto. intros s' Hs'. exists s'. auto.
  - rewrite Hw. unfold advance, set_sessions, set_ops, set_ticks. world_simpl.
    repeat split.
    + intros k Hk. apply lookup_alter_ne. congruence.
    + intros Hnone. congruence.
    + intros s' Hs'. rewrite lookup_alter_eq, Hx in Hs'. cbn in Hs'.
      injection Hs' as <-. exists x. auto.
Qed.

Lemma session_id_truthy (source : nat -> byte) (from : nat) :
  truthy (toString_hex (entropy source from 32)) = true.
Proof. rewrite (entropy_S source from 31). apply toString_hex_truthy. Qed.

Lemma session_id_nonempty (source : nat -> byte) (from : nat) :
  toString_hex (entropy source from 32) <> "".
Proof. intros H. pose proof (session_id_truthy source from) as Ht. rewrite H in Ht. discriminate. Qed.

(** The complete behaviour of [createSession], read off its code. *)
Lemma createSession_run (userId : string) (w : World) :
  let sid := toString_hex (entropy (rng w) (drawn w) 32) in
  let e := clock w (ticks w) + AuthService.SESSION_DURATION in
  AuthService.createSession userId w
  = if negb (truthy userId) then
      (inl ValidationError,
       mkWorld (users w) (sessions w) (clock w) (S (ticks w)) (faults w) (ops w)
         (rng w) (drawn w + 32) (NODE_ENV w))
    else if faults w (ops w) then
      (inl MongoError,
       mkWorld (users w) (sessions w) (clock w) (S (ticks w)) (faults w) (S (ops w))
         (rng w) (drawn w + 32) (NODE_ENV w))
    else
      match sessions w !! sid with
      | Some _ =>
        (inl DuplicateKeyError,
         mkWorld (users w) (sessions w) (clock w) (S (ticks w)) (faults w) (S (ops w))
           (rng w) (drawn w + 32) (NODE_ENV w))
      | None =>
        (inr (SessionData.mk sid userId e),
         mkWorld (users w) (<[sid := ISession.mk sid userId e e]> (sessions w))
           (clock w) (S (ticks w)) (faults w) (S (ops w))
           (rng w) (drawn w + 32) (NODE_ENV w))
      end.
Proof.
  intros sid e. subst sid e. exec. rewrite session_id_truthy. world_simpl.
  destruct (truthy userId); world_simpl; [| reflexivity].
  destruct (faults w (ops w)); world_simpl; [reflexivity |].
  destruct (sessions w !! _); reflexivity.
Qed.

Lemma createSession_effect (userId : string) (w : World) :
  let out := AuthService.createSession userId w in
  let sid := toString_hex (entropy (rng w) (drawn w) 32) in
  let e := clock w (ticks w) + AuthService.SESSION_DURATION in
  users out.2 = users w /\
  match out.1 with
  | inr data =>
    userId <> "" /\ sessions w !! sid = None /\
    data = SessionData.mk sid userId e /\
    sessions out.2 = <[sid := ISession.mk sid userId e e]> (sessions w)
  | inl _ => sessions out.2 = sessions w
  end.
Proof.
  intros out sid e. subst out sid e. rewrite createSession_run.
  destruct (truthy userId) eqn:Hu; cbn [negb]; [| split; reflexivity].
  destruct (faults w (ops w)); [split; reflexivity |].
  destruct (sessions w !! _) eqn:Hfree; world_simpl; [split; reflexivity |].
  repeat split; auto. intros ->. discriminate.
Qed.

(** [createSession] adds one session or nothing. It resolves only for a
    non-empty user id and an unused token, and then stores, under the token
    it returns, a session of that user whose two expiries are the returned
    [expiresAt], the clock reading plus seven days. When it rejects (empty
    user id, store failure, token already taken) the sessions are exactly as
    before. The users are never touched. *)
Theorem createSession_adds_one_session_or_nothing (userId : string) (w : World) :
  let out := AuthService.createSession userId w in
  let sid := toString_hex (entropy (rng w) (drawn w) 32) in
  let e := clock w (ticks w) + AuthService.SESSION_DURATION in
  users out.2 = users w /\
  match out.1 with
  | inr data =>
    userId <> "" /\ sessions w !! sid = None /\
    data = SessionData.mk sid userId e /\
    sessions out.2 = <[sid := ISession.mk sid userId e e]> (sessions w)
  | inl _ => sessions out.2 = sessions w
  end.
Proof. apply createSession_effect. Qed.

(** When the store answers, [invalidateSession tok] resolves, removes the
    session of [tok] and nothing else, and is a no-op when there is no such
    session; invalidating again changes nothing more, and the token no
    longer validates. *)
Theorem invalidateSession_removes_one_and_is_idempotent (tok : string) (w : World) :
  faults w (ops w) = false ->
  let out := AuthService.invalidateSession tok w in
  out.1 = inr tt /\
  users out.2 = users w /\
  sessions out.2 !! tok = None /\
  (forall k, k <> tok -> sessions out.2 !! k = sessions w !! k) /\
  (sessions w !! tok = None -> sessions out.2 = sessions w) /\
  sessions (AuthService.invalidateSession tok out.2).2 = sessions out.2 /\
  (AuthService.validateSession tok out.2).1 = inr AuthService.rejected.
Proof.
  intros F out. subst out.
  assert (Hrun : AuthService.invalidateSession tok w
                 = (inr tt, set_sessions (delete tok) (set_ops (S (ops w)) w))).
  { exec. rewrite F. reflexivity. }
  rewrite Hrun. unfold set_sessions, set_ops. world_simpl.
  repeat split.
  - apply lookup_delete_eq.
  - intros k Hk. apply lookup_delete_ne. congruence.
  - intros Hnone. apply delete_id. exact Hnone.
  - exec. destruct (faults w (S (ops w))); world_simpl; [reflexivity |].
    apply delete_id, lookup_delete_eq.
  - apply validateSession_absent. world_simpl. apply lookup_delete_eq.
Qed.

Lemma invalidateSession_removes_one_and_is_idempotent_witness :
  let w := Scenario.world_with Scenario.ward Scenario.ticking in
  let w' := (AuthService.invalidateSession "e1" w).2 in
  sessions w' !! "e1" = None /\
  sessions w' !! "a1" = Some (Scenario.session_of "a1" "u-ana" (Scenario.t0 + Scenario.day)).
Proof.
  intros w w'.
  destruct (invalidateSession_removes_one_and_is_idempotent "e1" w eq_refl)
    as (_ & _ & Hgone & Hothers & _).
  split; [exact Hgone |]. subst w'. rewrite (Hothers "a1"); [reflexivity | discriminate].
Defined.

(** A session just created for a user of the store validates: the next
    [validateSession] of the returned token hands back the very
    [SessionData] that [createSession] returned, with the user's id, e-mail
    and role, and does not write to the store. The store answers, and the
    two clock readings of the validation come no later than the expiry and
    no later than half a lifetime after the creation. *)
Theorem created_session_validates (w : World) (userId : string) (u : IUser.t) :
  healthy w ->
  userId <> "" ->
  users w !! userId = Some u ->
  sessions w !! toString_hex (entropy (rng w) (drawn w) 32) = None ->
  clock w (S (ticks w)) <= clock w (ticks w) + AuthService.SESSION_DURATION ->
  clock w (S (S (ticks w))) <= clock w (ticks w) + AuthService.SESSION_DURATION / 2 ->
  let created := AuthService.createSession userId w in
  exists data,
    created.1 = inr data /\
    SessionData.userId data = userId /\
    AuthService.validateSession (SessionData.id data) created.2
    = (inr (Some data,
            Some (SessionUser.mk (IUser._id u) (IUser.email u) (IUser.role u))),
       advance 2 2 created.2).
Proof.
  intros Hh Hne Hu Hfree Hlive Hhalf created. subst created.
  rewrite createSession_run. rewrite (truthy_true _ Hne), (Hh (ops w)), Hfree.
  cbn [negb]. eexists. split; [reflexivity |]. split; [reflexivity |].
  world_simpl.
  set (sid := toString_hex _) in *.
  set (e := clock w (ticks w) + AuthService.SESSION_DURATION).
  set (w1 := mkWorld _ _ _ _ _ _ _ _ _).
  assert (Hh1 : healthy w1) by (intros k; apply Hh).
  assert (Hs1 : sessions w1 !! sid = Some (ISession.mk sid userId e e))
    by apply lookup_insert_eq.
  rewrite (validate_keep w1 sid _ Hh1 (session_id_nonempty _ _) Hs1 u Hu).
  - reflexivity.
  - subst w1 e. world_simpl. lia.
  - subst w1 e. world_simpl. rewrite half_duration in *. rewrite duration_value. lia.
Qed.

Lemma created_session_validates_witness :
  let w := Scenario.world_with ∅ Scenario.ticking in
  exists data,
    (AuthService.createSession "u-ana" w).1 = inr data /\
    (AuthService.validateSession (SessionData.id data)
       (AuthService.createSession "u-ana" w).2).1
    = inr (Some data, Some (SessionUser.mk "u-ana" "ana@clinic.test" "doctor")).
Proof.
  intros w.
  destruct (created_session_validates w "u-ana" Scenario.ana (scenario_healthy _ _)
              ltac:(discriminate) eq_refl eq_refl
              ltac:(vm_compute; discriminate) ltac:(vm_compute; discriminate))
    as (data & Hc & _ & Hv).
  exists data. split; [exact Hc |]. rewrite Hv. reflexivity.
Defined.

(** The stale expiry is repaired by the next validation. After a call that
    slid the expiry, a further [validateSession] of the same token (made
    before the new expiry and within half a lifetime of the extension)
    returns the extended expiry, which is the stored one, and leaves the
    store as it is. *)
Theorem extension_is_visible_on_next_validation
    (w : World) (tok : string) (s : ISession.t) (u : IUser.t) :
  healthy w -> tok <> "" ->
  sessions w !! tok = Some s ->
  users w !! ISession.user_id s = Some u ->
  clock w (ticks w) <= ISession.active_expires s ->
  ISession.active_expires s - clock w (S (ticks w)) < AuthService.SESSION_DURATION / 2 ->
  let now := clock w (S (S (ticks w))) in
  clock w (3 + ticks w) <= now + AuthService.SESSION_DURATION ->
  clock w (4 + ticks w) <= now + AuthService.SESSION_DURATION / 2 ->
  let first := AuthService.validateSession tok w in
  let second := AuthService.validateSession tok first.2 in
  first.1 = inr (accepted s u) /\
  second.1 = inr (accepted (extended now s) u) /\
  sessions second.2 = sessions first.2 /\
  sessions second.2 !! tok = Some (extended now s).
Proof.
  intros Hh Htok Hs Hu Hlive Hrem now Hlive2 Hhalf first second.
  subst first second.
  rewrite (validate_extend w tok s Hh Htok Hs u Hu Hlive Hrem). cbn [fst snd].
  set (w1 := set_sessions _ _).
  assert (Hh1 : healthy w1) by (intros k; apply Hh).
  assert (Hs1 : sessions w1 !! tok = Some (extended now s)).
  { subst w1. unfold set_sessions, advance, set_ops, set_ticks. world_simpl.
    rewrite lookup_alter_eq, Hs. reflexivity. }
  assert (Hu1 : users w1 !! ISession.user_id (extended now s) = Some u) by exact Hu.
  rewrite (validate_keep w1 tok _ Hh1 Htok Hs1 u Hu1).
  - unfold advance, set_ops, set_ticks. world_simpl. auto.
  - subst w1. unfold extended, set_sessions, advance, set_ops, set_ticks. world_simpl.
    subst now. exact Hlive2.
  - subst w1. unfold extended, set_sessions, advance, set_ops, set_ticks. world_simpl.
    subst now. rewrite half_duration in *. rewrite duration_value. lia.
Qed.

Lemma extension_is_visible_on_next_validation_witness :
  let w := Scenario.world_with Scenario.ageing Scenario.ticking in
  let first := AuthService.validateSession "tok" w in
  (AuthService.validateSession "tok" first.2).1
  = inr (accepted (Scenario.session_of "tok" "u-ana" (Scenario.t0 + 2 + 7 * Scenario.day))
           Scenario.ana).
Proof.
  intros w first.
  destruct (extension_is_visible_on_next_validation w "tok"
              (Scenario.session_of "tok" "u-ana" (Scenario.t0 + Scenario.day))
              Scenario.ana (scenario_healthy _ _) ltac:(discriminate) eq_refl eq_refl
              ltac:(vm_compute; discriminate) ltac:(vm_compute; reflexivity)
              ltac:(vm_compute; discriminate) ltac:(vm_compute; discriminate))
    as (_ & Hsecond & _).
  exact Hsecond.
Defined.

(** ** Session tokens *)

Lemma hex_digit_is_hex (n : N) : is_hex_char (hex_digit n) = true.
Proof.
  unfold hex_digit.
  repeat match goal with
         | |- context [match ?x with _ => _ end] => destruct x
         end; reflexivity.
Qed.

Lemma hex_value_digit_nat (k : nat) :
  (k < 16)%nat -> hex_value (hex_digit (N.of_nat k)) = N.of_nat k.
Proof.
  intros Hk. do 16 (destruct k as [| k]; [reflexivity |]). lia.
Qed.

Lemma hex_value_digit (n : N) : (n < 16)%N -> hex_value (hex_digit n) = n.
Proof.
  intros Hn. rewrite <- (N2Nat.id n). apply hex_value_digit_nat. lia.
Qed.

Lemma toString_hex_length (bs : list N) :
  String.length (toString_hex bs) = (2 * length bs)%nat.
Proof.
  induction bs as [| b bs IH]; [reflexivity |].
  cbn [toString_hex foldr hex_of_octet String.length length] in *.
  unfold toString_hex in IH. rewrite IH. lia.
Qed.

Lemma toString_hex_chars (bs : list N) : all_chars is_hex_char (toString_hex bs) = true.
Proof.
  induction bs as [| b bs IH]; [reflexivity |].
  cbn [toString_hex foldr hex_of_octet all_chars].
  rewrite !hex_digit_is_hex. exact IH.
Qed.

Lemma parse_toString_hex (bs : list N) :
  Forall (fun b => (b < 256)%N) bs -> parse_hex (toString_hex bs) = bs.
Proof.
  induction 1 as [| b bs Hb _ IH]; [reflexivity |].
  cbn [toString_hex foldr hex_of_octet parse_hex].
  unfold toString_hex in IH. rewrite IH. f_equal.
  rewrite !hex_value_digit.
  - symmetry. apply N.div_mod. discriminate.
  - apply N.mod_upper_bound. discriminate.
  - apply N.Div0.div_lt_upper_bound. exact Hb.
Qed.

Lemma entropy_octets (source : nat -> byte) (from n : nat) :
  Forall (fun b => (b < 256)%N) (entropy source from n).
Proof.
  unfold entropy. apply Forall_forall. intros b Hb.
  apply list_elem_of_In, in_map_iff in Hb as (k & <- & _).
  pose proof (Byte.to_N_bounded (source k)). lia.
Qed.

Lemma entropy_length (source : nat -> byte) (from n : nat) :
  length (entropy source from n) = n.
Proof. unfold entropy. rewrite length_map. apply length_seq. Qed.

(** [generateSessionId] always resolves, with a token of exactly 64
    lower-case hexadecimal characters from which the 32 random bytes it drew
    can be read back (the rendering loses no entropy); it advances the
    entropy position by 32 and touches nothing else. *)
Theorem session_tokens_are_64_hex_characters (w : World) :
  let tok := toString_hex (entropy (rng w) (drawn w) 32) in
  AuthService.generateSessionId w = (inr tok, set_drawn (drawn w + 32) w) /\
  String.length tok = 64%nat /\
  all_chars is_hex_char tok = true /\
  parse_hex tok = entropy (rng w) (drawn w) 32.
Proof.
  intros tok. subst tok. split; [reflexivity |].
  split; [rewrite toString_hex_length, entropy_length; reflexivity |].
  split; [apply toString_hex_chars |].
  apply parse_toString_hex, entropy_octets.
Qed.

(** ** The login route, in full *)

Lemma login_run (argon2_verify : string -> string -> option bool)
    (req : FastifyRequest) (w : World) :
  let email := Body.email (body req) in
  let password := Body.password (body req) in
  let w1 := set_ops (S (ops w)) w in
  login argon2_verify req w
  = if negb (truthy_opt email) || negb (truthy_opt password) then
      (inr missing_credentials, w)
    else if faults w (ops w) then (inr failed_to_login, w1)
    else
      match first_with_email (default "" email) (users w) with
      | None => (inr invalid_credentials, w1)
      | Some u =>
        match argon2_verify (IUser.hashed_password u) (default "" password) with
        | None => (inr failed_to_login, w1)
        | Some false => (inr invalid_credentials, w1)
        | Some true =>
          match AuthService.createSession (IUser._id u) w1 with
          | (inl _, w2) => (inr failed_to_login, w2)
          | (inr data, w2) =>
            (inr (logged_in u (SessionData.id data)
                    (String.eqb (NODE_ENV w2) "production")), w2)
          end
        end
      end.
Proof.
  intros email password w1. subst email password w1.
  unfold login, verify, in_production, try_catch, User.findOne, db_call, gets, throw.
  unfold mbind, M_bind, mret, M_ret.
  destruct (negb (truthy_opt (Body.email (body req)))
            || negb (truthy_opt (Body.password (body req)))); [reflexivity |].
  destruct (faults w (ops w)); [reflexivity |].
  cbn [users set_ops].
  destruct (first_with_email _ (users w)) as [u |]; [| reflexivity].
  destruct (argon2_verify _ _) as [[|] |]; try reflexivity.
  cbn [negb].
  destruct (AuthService.createSession (IUser._id u) _) as [[e | data] w2]; reflexivity.
Qed.

Lemma falsy_fields (email password : option string) :
  negb (truthy_opt email) || negb (truthy_opt password) = false ->
  exists e p, email = Some e /\ password = Some p /\ e <> "" /\ p <> "".
Proof.
  intros H. apply orb_false_elim in H as [He Hp].
  apply negb_false_iff in He, Hp.
  destruct email as [e |], password as [p |]; try discriminate.
  exists e, p. repeat split; auto; intros ->; discriminate.
Qed.

(** A login opens a session only for a verified password, and the handler
    always resolves with a reply. Whatever the store does, the users are
    left alone. A reply other than 200 comes with no cookie and with the
    sessions exactly as before. A 200 reply is given only when the request
    carries a non-empty e-mail and password, some stored user has that
    e-mail and the hasher verified the password against that user's digest;
    then exactly one session, owned by that user, was added under an unused
    token, and the reply sets that token as the session cookie. *)
Theorem login_opens_a_session_only_for_a_verified_password
    (argon2_verify : string -> string -> option bool)
    (req : FastifyRequest) (w : World) :
  let out := login argon2_verify req w in
  exists reply,
    out.1 = inr reply /\
    users out.2 = users w /\
    (statusCode reply <> 200 ->
     cookie_ops reply = [] /\ sessions out.2 = sessions w) /\
    (statusCode reply = 200 ->
     exists k u e p sid expires,
       Body.email (body req) = Some e /\ Body.password (body req) = Some p /\
       e <> "" /\ p <> "" /\
       users w !! k = Some u /\ IUser.email u = e /\
       argon2_verify (IUser.hashed_password u) p = Some true /\
       sessions w !! sid = None /\
       sessions out.2
       = <[sid := ISession.mk sid (IUser._id u) expires expires]> (sessions w) /\
       reply = logged_in u sid (String.eqb (NODE_ENV w) "production")).
Proof.
  intros out. subst out. rewrite login_run.
  destruct (negb _ || negb _) eqn:Hfields.
  { eexists. split; [reflexivity |]. repeat split; auto. discriminate. }
  apply falsy_fields in Hfields as (e & p & He & Hp & Ne & Np).
  rewrite He, Hp. cbn [default from_option id].
  destruct (faults w (ops w)).
  { eexists. split; [reflexivity |]. repeat split; auto. discriminate. }
  destruct (first_with_email e (users w)) as [u |] eqn:Hfound.
  2: { eexists. split; [reflexivity |]. repeat split; auto. discriminate. }
  destruct (argon2_verify _ _) as [[|] |] eqn:Hverify.
  2, 3: eexists; (split; [reflexivity |]); repeat split; auto; discriminate.
  pose proof (createSession_effect (IUser._id u)
                (set_ops (S (ops w)) w)) as Hcreate.
  pose proof (createSession_run (IUser._id u) (set_ops (S (ops w)) w)) as Hrun.
  cbv zeta in Hrun, Hcreate.
  destruct (AuthService.createSession (IUser._id u) _) as [[err | data] w2].
  - eexists. split; [reflexivity |]. cbn [fst snd] in *.
    destruct Hcreate as [Hu Hs]. repeat split; auto. discriminate.
  - eexists. split; [reflexivity |]. cbn [fst snd] in *.
    destruct Hcreate as [Hu (Hne & Hfree & -> & Hs)].
    split; [exact Hu |]. split; [intros Hbad; exfalso; apply Hbad; reflexivity |].
    intros _. apply first_with_email_Some in Hfound as (k & Hk & Hemail).
    exists k, u, e, p. do 2 eexists.
    repeat split; eauto.
    cbn [SessionData.id].
    replace (NODE_ENV w2) with (NODE_ENV w); [reflexivity |].
    unfold set_ops in Hrun. world_simpl.
    destruct (truthy (IUser._id u)); cbn [negb] in Hrun.
    + destruct (faults w (S (ops w))); [discriminate Hrun |].
      destruct (sessions w !! _); [discriminate Hrun |].
      apply (f_equal (fun r => NODE_ENV r.2)) in Hrun. cbn [snd NODE_ENV] in Hrun.
      symmetry. exact Hrun.
    + discriminate Hrun.
Qed.

(** ** From the cookie back to the identity *)

Lemma preHandler_resolves (req : FastifyRequest) (w w' : World) (tok : string) r :
  cookies req ≫= (fun jar => jar !! "session") = Some tok ->
  tok <> "" ->
  AuthService.validateSession tok w = (inr r, w') ->
  preHandler req w = (inr (set_identity r.2 r.1 req), w').
Proof.
  intros Hjar Htok Hrun. unfold preHandler, preHandler_with, try_catch.
  rewrite Hjar. cbn [or_default]. rewrite (truthy_true _ Htok).
  unfold mbind, M_bind, mret, M_ret. cbn [negb]. cbv iota.
  rewrite (truthy_true _ Htok). cbn [negb]. rewrite Hrun. reflexivity.
Qed.

Lemma returning_presents (tok : string) (secure : bool) :
  cookies (returning (AuthService.createSessionCookie tok secure))
    ≫= (fun jar => jar !! "session") = Some tok.
Proof. unfold returning. cbn. apply lookup_insert_eq. Qed.

(** A client that sends back the cookie of a session that is in the store,
    owned by a stored user, before half of its lifetime has passed, is
    resolved by the hook to that user and that session; the store is not
    written. *)
Lemma kept_cookie_resolves (w : World) (tok : string) (secure : bool)
    (s : ISession.t) (u : IUser.t) :
  healthy w -> tok <> "" ->
  sessions w !! tok = Some s ->
  users w !! ISession.user_id s = Some u ->
  clock w (ticks w) <= ISession.active_expires s ->
  AuthService.SESSION_DURATION / 2 <= ISession.active_expires s - clock w (S (ticks w)) ->
  preHandler (returning (AuthService.createSessionCookie tok secure)) w
  = (inr (set_identity (accepted s u).2 (accepted s u).1
            (returning (AuthService.createSessionCookie tok secure))),
     advance 2 2 w).
Proof.
  intros Hh Htok Hs Hu Hlive Hhalf.
  apply (preHandler_resolves _ w _ tok); auto using returning_presents.
  apply validate_keep; assumption.
Qed.

(** Login, then the next request. A login with the right password for a
    stored user answers 200 with that user's id, e-mail and role and sets
    one cookie: name [session], value the new 64-character token, HTTP-only,
    SameSite lax, path [/], max-age the session lifetime in seconds. When
    the client sends that cookie back (before half the lifetime has passed)
    the hook resolves the request to the same user and to the session the
    login created. The users are stored under their ids with distinct
    e-mails, the store answers, and the drawn token is unused. *)
Theorem login_then_request_is_authenticated
    (argon2_verify : string -> string -> option bool)
    (w : World) (req : FastifyRequest) (e p k : string) (u : IUser.t) :
  healthy w ->
  Body.email (body req) = Some e -> Body.password (body req) = Some p ->
  e <> "" -> p <> "" ->
  keyed_by_id (users w) -> unique_emails (users w) ->
  users w !! k = Some u -> IUser.email u = e -> k <> "" ->
  argon2_verify (IUser.hashed_password u) p = Some true ->
  let sid := toString_hex (entropy (rng w) (drawn w) 32) in
  let expires := clock w (ticks w) + AuthService.SESSION_DURATION in
  sessions w !! sid = None ->
  clock w (S (ticks w)) <= clock w (ticks w) + AuthService.SESSION_DURATION ->
  clock w (S (S (ticks w))) <= clock w (ticks w) + AuthService.SESSION_DURATION / 2 ->
  let out := login argon2_verify req w in
  exists cookie next,
    out.1 = inr (mkReply 200
                   (AccountPayload "Logged in successfully"
                      (SessionUser.mk k e (IUser.role u)))
                   [SetCookie cookie]) /\
    AuthService.name cookie = "session" /\
    AuthService.value cookie = sid /\ String.length sid = 64%nat /\
    AuthService.httpOnly (AuthService.attributes cookie) = true /\
    AuthService.sameSite (AuthService.attributes cookie) = "lax" /\
    AuthService.path (AuthService.attributes cookie) = "/" /\
    AuthService.maxAge (AuthService.attributes cookie) * 1000 = AuthService.SESSION_DURATION /\
    (preHandler (returning cookie) out.2).1 = inr next /\
    user next = Some (SessionUser.mk k e (IUser.role u)) /\
    session next = Some (SessionData.mk sid k expires).
Proof.
  intros Hh He Hp Ne Np Hkeyed Huniq Hk Hemail Nk Hverify sid expires Hfree Hlive Hhalf out.
  subst out. rewrite login_run. rewrite He, Hp.
  cbn [truthy_opt default from_option id].
  rewrite (truthy_true _ Ne), (truthy_true _ Np), (Hh (ops w)). cbn [negb orb].
  destruct (first_with_email_found e (users w) k u Hk Hemail) as [u' Hfound].
  destruct (first_with_email_Some _ _ _ Hfound) as (k' & Hk' & Hemail').
  assert (k' = k) by (apply (Huniq k' k u' u); congruence). subst k'.
  assert (u' = u) by congruence. subst u'.
  rewrite Hfound, Hverify, createSession_run.
  rewrite (Hkeyed k u Hk). rewrite (truthy_true _ Nk).
  unfold set_ops. world_simpl. rewrite (Hh (S (ops w))).
  fold sid. rewrite Hfree. fold expires.
  set (w2 := mkWorld _ _ _ _ _ _ _ _ _).
  set (s := ISession.mk sid k expires expires).
  assert (Hresolve := kept_cookie_resolves w2 sid (String.eqb (NODE_ENV w2) "production")
                        s u).
  unfold logged_in. cbn [fst snd SessionData.id]. do 2 eexists.
  rewrite Hresolve.
  - unfold accepted, set_identity. subst s. world_simpl. cbn [user session].
    rewrite (Hkeyed k u Hk), Hemail. repeat split.
  - intros j. apply Hh.
  - apply session_id_nonempty.
  - apply lookup_insert_eq.
  - exact Hk.
  - subst w2 s expires. world_simpl. lia.
  - subst w2 s expires. world_simpl. rewrite half_duration in *. rewrite duration_value. lia.
Qed.

Lemma staff_keys k u :
  Scenario.staff !! k = Some u ->
  (k = "u-ana" /\ u = Scenario.ana) \/ (k = "u-eva" /\ u = Scenario.eva).
Proof.
  unfold Scenario.staff.
  intros [[<- <-] | [_ [[<- <-] | [_ Hk]]%lookup_insert_Some]]%lookup_insert_Some; auto.
  rewrite lookup_empty in Hk. discriminate.
Qed.

Lemma staff_keyed_by_id : keyed_by_id Scenario.staff.
Proof. intros k u [[-> ->] | [-> ->]]%staff_keys; reflexivity. Qed.

Lemma staff_unique_emails : unique_emails Scenario.staff.
Proof.
  intros k1 k2 u1 u2 [[-> ->] | [-> ->]]%staff_keys [[-> ->] | [-> ->]]%staff_keys;
    (reflexivity || discriminate).
Qed.

Lemma login_then_request_is_authenticated_witness :
  let w := Scenario.world_with ∅ Scenario.ticking in
  let out := login Scenario.ref_verify
               (Scenario.credentials "ana@clinic.test" "s3cret" None) w in
  exists cookie next,
    out.1 = inr (mkReply 200
                   (AccountPayload "Logged in successfully"
                      (SessionUser.mk "u-ana" "ana@clinic.test" "doctor"))
                   [SetCookie cookie]) /\
    (preHandler (returning cookie) out.2).1 = inr next /\
    user next = Some (SessionUser.mk "u-ana" "ana@clinic.test" "doctor").
Proof.
  intros w out.
  destruct (login_then_request_is_authenticated Scenario.ref_verify w
              (Scenario.credentials "ana@clinic.test" "s3cret" None)
              "ana@clinic.test" "s3cret" "u-ana" Scenario.ana
              (scenario_healthy _ _) eq_refl eq_refl
              ltac:(discriminate) ltac:(discriminate)
              staff_keyed_by_id staff_unique_emails eq_refl eq_refl
              ltac:(discriminate) eq_refl eq_refl
              ltac:(vm_compute; discriminate) ltac:(vm_compute; discriminate))
    as (cookie & next & Hreply & _ & _ & _ & _ & _ & _ & _ & Hnext & Huser & _).
  exists cookie, next. auto.
Defined.

(** ** The sign-up route, in full *)

Lemma User_create_run (u : IUser.t) (w : World) :
  User.create u w
  = if negb (truthy (IUser._id u) && truthy (IUser.email u)
             && truthy (IUser.hashed_password u))
    then (inl ValidationError, w)
    else if faults w (ops w) then (inl MongoError, set_ops (S (ops w)) w)
    else
      match users w !! IUser._id u, first_with_email (IUser.email u) (users w) with
      | None, None =>
        (inr tt, set_users (insert (IUser._id u) u) (set_ops (S (ops w)) w))
      | _, _ => (inl DuplicateKeyError, set_ops (S (ops w)) w)
      end.
Proof.
  exec. destruct (negb _); [reflexivity |].
  destruct (faults w (ops w)); world_simpl; [reflexivity |].
  destruct (users w !! IUser._id u), (first_with_email (IUser.email u) (users w));
    reflexivity.
Qed.

(** [User.create] inserts one document under its own, unused [_id], with
    an e-mail nobody has, or changes nothing. *)
Lemma User_create_effect (u : IUser.t) (w : World) :
  let out := User.create u w in
  sessions out.2 = sessions w /\
  match out.1 with
  | inr _ =>
    IUser._id u <> "" /\ users w !! IUser._id u = None /\
    first_with_email (IUser.email u) (users w) = None /\
    users out.2 = <[IUser._id u := u]> (users w)
  | inl _ => users out.2 = users w
  end.
Proof.
  intros out. subst out. rewrite User_create_run.
  destruct (truthy (IUser._id u)) eqn:Hid; cbn [andb negb]; [| split; reflexivity].
  destruct (negb _); [split; reflexivity |].
  destruct (faults w (ops w)); [split; reflexivity |].
  destruct (users w !! IUser._id u) eqn:Hfree; [split; reflexivity |].
  destruct (first_with_email _ _) eqn:Hnew; [split; reflexivity |].
  repeat split; auto. intros Hempty. rewrite Hempty in Hid. discriminate.
Qed.

Lemma signup_run (argon2_hash : list N -> string -> option string)
    (req : FastifyRequest) (w : World) :
  let email := Body.email (body req) in
  let password := Body.password (body req) in
  let granted := or_default (Body.role (body req)) "assistant" in
  let userId := uuid_of_octets (entropy (rng w) (drawn w + 16) 16) in
  let w1 := set_ops (S (ops w)) w in
  signup argon2_hash req w
  = if negb (truthy_opt email) || negb (truthy_opt password) then
      (inr missing_credentials, w)
    else if faults w (ops w) then (inr failed_to_create_user, w1)
    else
      match first_with_email (default "" email) (users w) with
      | Some _ => (inr email_in_use, w1)
      | None =>
        match argon2_hash (entropy (rng w) (drawn w) 16) (default "" password) with
        | None => (inr failed_to_create_user, set_drawn (drawn w + 16) w1)
        | Some digest =>
          match User.create (IUser.mk userId (default "" email) digest granted)
                  (set_drawn (drawn w + 16 + 16) w1) with
          | (inl _, w2) => (inr failed_to_create_user, w2)
          | (inr _, w2) =>
            match AuthService.createSession userId w2 with
            | (inl _, w3) => (inr failed_to_create_user, w3)
            | (inr data, w3) =>
              (inr (mkReply 201
                      (AccountPayload "User created successfully"
                         (SessionUser.mk userId (default "" email) granted))
                      [SetCookie (AuthService.createSessionCookie (SessionData.id data)
                                    (String.eqb (NODE_ENV w3) "production"))]),
               w3)
            end
          end
        end
      end.
Proof.
  intros email password granted userId w1. subst email password granted userId w1.
  unfold signup, hash, randomUUID, randomBytes, in_production, try_catch,
    User.findOne, db_call, gets, throw.
  unfold mbind, M_bind, mret, M_ret.
  destruct (negb (truthy_opt (Body.email (body req)))
            || negb (truthy_opt (Body.password (body req)))); [reflexivity |].
  destruct (faults w (ops w)); [reflexivity |].
  unfold set_ops, set_drawn. world_simpl.
  destruct (first_with_email _ (users w)); [reflexivity |].
  destruct (argon2_hash _ _) as [digest |]; [| reflexivity].
  world_simpl.
  destruct (User.create _ _) as [[e1 | []] w2]; [reflexivity |].
  destruct (AuthService.createSession _ w2) as [[e2 | data] w3]; reflexivity.
Qed.

Lemma insert_keeps_keyed_by_id (m : gmap string IUser.t) (u : IUser.t) :
  keyed_by_id m -> keyed_by_id (<[IUser._id u := u]> m).
Proof.
  intros Hm k x [[<- <-] | [_ Hk]]%lookup_insert_Some; [reflexivity |].
  exact (Hm k x Hk).
Qed.

Lemma insert_keeps_unique_emails (m : gmap string IUser.t) (u : IUser.t) :
  unique_emails m ->
  first_with_email (IUser.email u) m = None ->
  unique_emails (<[IUser._id u := u]> m).
Proof.
  intros Hm Hnew k1 k2 u1 u2 H1 H2 Heq.
  pose proof (first_with_email_None_inv _ _ Hnew) as Hno.
  apply lookup_insert_Some in H1 as [[<- <-] | [N1 H1]];
    apply lookup_insert_Some in H2 as [[<- <-] | [N2 H2]].
  - reflexivity.
  - exfalso. apply (Hno k2 u2 H2). congruence.
  - exfalso. apply (Hno k1 u1 H1). congruence.
  - exact (Hm k1 k2 u1 u2 H1 H2 Heq).
Qed.

(** Sign-up keeps the user collection well formed, whatever the store
    does: if every user sits under its own id and no two users share an
    e-mail, the same holds after the request; every user that was there is
    still there, unchanged; and the handler always resolves with a reply. *)
Theorem signup_keeps_the_users_well_formed
    (argon2_hash : list N -> string -> option string)
    (req : FastifyRequest) (w : World) :
  keyed_by_id (users w) -> unique_emails (users w) ->
  let out := signup argon2_hash req w in
  keyed_by_id (users out.2) /\ unique_emails (users out.2) /\
  (forall k u, users w !! k = Some u -> users out.2 !! k = Some u) /\
  (exists reply, out.1 = inr reply).
Proof.
  intros Hkeyed Huniq out. subst out. rewrite signup_run.
  destruct (negb _ || negb _); [repeat split; eauto |].
  destruct (faults w (ops w)); [repeat split; eauto |].
  destruct (first_with_email _ (users w)); [repeat split; eauto |].
  destruct (argon2_hash _ _) as [digest |]; [| repeat split; eauto].
  match goal with |- context [User.create ?x ?y] =>
    pose proof (User_create_effect x y) as Hcreate; cbv zeta in Hcreate;
    destruct (User.create x y) as [[e1 | []] w2]
  end; cbn [fst snd] in Hcreate; destruct Hcreate as [_ Hcreate].
  { unfold set_drawn, set_ops in Hcreate. world_simpl.
    cbn [fst snd]. rewrite Hcreate. repeat split; eauto. }
  destruct Hcreate as (_ & Hfree & Hnew & Husers).
  unfold set_drawn, set_ops in Hfree, Hnew, Husers. world_simpl.
  assert (Hwf : keyed_by_id (users w2) /\ unique_emails (users w2) /\
                forall k u, users w !! k = Some u -> users w2 !! k = Some u).
  { rewrite Husers. split; [| split].
    - apply (insert_keeps_keyed_by_id _ (IUser.mk _ _ _ _)). exact Hkeyed.
    - apply (insert_keeps_unique_emails _ (IUser.mk _ _ _ _)); assumption.
    - intros k u Hk. rewrite lookup_insert_ne; [exact Hk |]. intros <-. congruence. }
  match goal with |- context [AuthService.createSession ?x ?y] =>
    pose proof (createSession_effect x y) as Hsession;
    cbv zeta in Hsession;
    destruct (AuthService.createSession x y) as [[e2 | data] w3]
  end; cbn [fst snd] in *; destruct Hsession as [-> _];
    destruct Hwf as (? & ? & ?); repeat split; eauto.
Qed.

Lemma signup_keeps_the_users_well_formed_witness :
  let w := Scenario.world_with ∅ Scenario.ticking in
  let out := signup Scenario.ref_hash
               (Scenario.credentials "new@clinic.test" "pw" (Some "admin")) w in
  unique_emails (users out.2) /\ users out.2 !! "u-ana" = Some Scenario.ana.
Proof.
  intros w out.
  destruct (signup_keeps_the_users_well_formed Scenario.ref_hash
              (Scenario.credentials "new@clinic.test" "pw" (Some "admin")) w
              staff_keyed_by_id staff_unique_emails)
    as (_ & Huniq & Hkept & _).
  split; [exact Huniq | apply Hkept; reflexivity].
Defined.



(** Signing up with an e-mail that a stored user already has is answered
    409 "Email already in use" when the store answers the lookup: nothing
    is hashed, no identifier is drawn, and users and sessions stay as they
    were. *)
Theorem signup_with_a_registered_email_conflicts
    (argon2_hash : list N -> string -> option string)
    (w : World) (req : FastifyRequest) (e p k : string) (u : IUser.t) :
  faults w (ops w) = false ->
  Body.email (body req) = Some e -> Body.password (body req) = Some p ->
  e <> "" -> p <> "" ->
  users w !! k = Some u -> IUser.email u = e ->
  signup argon2_hash req w
  = (inr (mkReply 409 (ErrorPayload "Conflict" "Email already in use") []),
     set_ops (S (ops w)) w).
Proof.
  intros F He Hp Ne Np Hk Hemail. rewrite signup_run, He, Hp, F.
  cbn [truthy_opt default from_option id].
  rewrite (truthy_true _ Ne), (truthy_true _ Np). cbn [negb orb].
  destruct (first_with_email_found e (users w) k u Hk Hemail) as [u' ->].
  reflexivity.
Qed.

Lemma signup_with_a_registered_email_conflicts_witness :
  let w := Scenario.world_with Scenario.fresh Scenario.ticking in
  let out := signup Scenario.ref_hash
               (Scenario.credentials "eva@clinic.test" "pw" (Some "admin")) w in
  out.1 = inr email_in_use /\ users out.2 = users w /\ drawn out.2 = drawn w.
Proof.
  intros w out. subst out.
  rewrite (signup_with_a_registered_email_conflicts Scenario.ref_hash w
             (Scenario.credentials "eva@clinic.test" "pw" (Some "admin"))
             "eva@clinic.test" "pw" "u-eva" Scenario.eva
             eq_refl eq_refl eq_refl ltac:(discriminate) ltac:(discriminate)
             eq_refl eq_refl).
  repeat split.
Defined.

(** Sign-up does not roll back. When the store answers the e-mail lookup
    and the insert of the user but fails on the insert of the session, the
    reply is 500 "Failed to create user", no session exists, and yet the new
    user is in the store; the same sign-up sent again (the store answering)
    is then refused with 409 "Email already in use". *)
Theorem signup_does_not_roll_back_the_user
    (argon2_hash : list N -> string -> option string)
    (w : World) (req : FastifyRequest) (e p digest : string) :
  faults w (ops w) = false ->
  faults w (S (ops w)) = false ->
  faults w (S (S (ops w))) = true ->
  faults w (S (S (S (ops w)))) = false ->
  Body.email (body req) = Some e -> Body.password (body req) = Some p ->
  e <> "" -> p <> "" ->
  (forall k u, users w !! k = Some u -> IUser.email u <> e) ->
  argon2_hash (entropy (rng w) (drawn w) 16) p = Some digest -> digest <> "" ->
  let userId := uuid_of_octets (entropy (rng w) (drawn w + 16) 16) in
  let granted := or_default (Body.role (body req)) "assistant" in
  users w !! userId = None ->
  let out := signup argon2_hash req w in
  out.1 = inr (mkReply 500
                 (ErrorPayload "Internal Server Error" "Failed to create user") []) /\
  users out.2 !! userId = Some (IUser.mk userId e digest granted) /\
  sessions out.2 = sessions w /\
  (signup argon2_hash req out.2).1
  = inr (mkReply 409 (ErrorPayload "Conflict" "Email already in use") []).
Proof.
  intros F0 F1 F2 F3 He Hp Ne Np Hnew Hhash Nd userId granted Hfree out. subst out.
  rewrite signup_run, He, Hp, F0.
  cbn [truthy_opt default from_option id].
  rewrite (truthy_true _ Ne), (truthy_true _ Np). cbn [negb orb].
  rewrite (first_with_email_None _ _ Hnew), Hhash.
  fold userId granted.
  rewrite User_create_run. unfold set_drawn, set_ops. world_simpl.
  subst userId. rewrite uuid_truthy, (truthy_true _ Ne), (truthy_true _ Nd).
  cbn [negb andb]. rewrite F1, Hfree, (first_with_email_None _ _ Hnew).
  rewrite createSession_run. unfold set_users. world_simpl.
  rewrite uuid_truthy, F2. cbn [negb fst snd]. world_simpl.
  split; [reflexivity |]. split; [apply lookup_insert_eq |]. split; [reflexivity |].
  set (w3 := mkWorld _ _ _ _ _ _ _ _ _).
  rewrite signup_run, He, Hp.
  cbn [truthy_opt default from_option id].
  rewrite (truthy_true _ Ne), (truthy_true _ Np). cbn [negb orb].
  subst w3. world_simpl. rewrite F3.
  edestruct (first_with_email_found e) as [u' ->]; [apply lookup_insert_eq | | reflexivity].
  reflexivity.
Qed.

Lemma signup_does_not_roll_back_the_user_witness :
  let w := mkWorld Scenario.staff ∅ Scenario.ticking 0 (fun k => Nat.eqb k 2) 0
             Scenario.zeros 0 "production" in
  let req := Scenario.credentials "new@clinic.test" "pw" None in
  (signup Scenario.ref_hash req w).1 = inr failed_to_create_user /\
  users (signup Scenario.ref_hash req w).2 !! "00000000-0000-4000-8000-000000000000"
  = Some (IUser.mk "00000000-0000-4000-8000-000000000000" "new@clinic.test"
            "$ref$00000000000000000000000000000000$pw" "assistant").
Proof.
  intros w req.
  destruct (signup_does_not_roll_back_the_user Scenario.ref_hash w req
              "new@clinic.test" "pw" "$ref$00000000000000000000000000000000$pw"
              eq_refl eq_refl eq_refl eq_refl eq_refl eq_refl
              ltac:(discriminate) ltac:(discriminate)
              ltac:(apply first_with_email_None_inv; vm_compute; reflexivity)
              eq_refl ltac:(discriminate) eq_refl)
    as (Hreply & Huser & _).
  split; [exact Hreply | exact Huser].
Defined.

(** Sign-up implies login. After a successful sign-up, the client that
    sends back the cookie the reply has set (before half the lifetime has
    passed) is resolved by the hook to the new user, with the e-mail and
    the role the sign-up stored, and to the session the sign-up created. *)
Theorem signup_then_request_is_authenticated
    (argon2_hash : list N -> string -> option string)
    (w : World) (req : FastifyRequest) (e p digest : string) :
  healthy w ->
  Body.email (body req) = Some e -> Body.password (body req) = Some p ->
  e <> "" -> p <> "" ->
  (forall k u, users w !! k = Some u -> IUser.email u <> e) ->
  argon2_hash (entropy (rng w) (drawn w) 16) p = Some digest -> digest <> "" ->
  let userId := uuid_of_octets (entropy (rng w) (drawn w + 16) 16) in
  let sessionId := toString_hex (entropy (rng w) (drawn w + 16 + 16) 32) in
  let granted := or_default (Body.role (body req)) "assistant" in
  let expires := clock w (ticks w) + AuthService.SESSION_DURATION in
  users w !! userId = None ->
  sessions w !! sessionId = None ->
  clock w (S (ticks w)) <= clock w (ticks w) + AuthService.SESSION_DURATION ->
  clock w (S (S (ticks w))) <= clock w (ticks w) + AuthService.SESSION_DURATION / 2 ->
  let out := signup argon2_hash req w in
  exists cookie next,
    out.1 = inr (mkReply 201
                   (AccountPayload "User created successfully"
                      (SessionUser.mk userId e granted))
                   [SetCookie cookie]) /\
    (preHandler (returning cookie) out.2).1 = inr next /\
    user next = Some (SessionUser.mk userId e granted) /\
    session next = Some (SessionData.mk sessionId userId expires).
Proof.
  intros Hh He Hp Ne Np Hnew Hhash Nd userId sessionId granted expires
         Hfu Hfs Hlive Hhalf out.
  subst out.
  rewrite (signup_creates argon2_hash w req e p digest Hh He Hp Ne Np
             (first_with_email_None _ _ Hnew) Hhash Nd Hfu Hfs).
  fold userId sessionId granted expires. cbn [fst snd].
  set (w2 := mkWorld _ _ _ _ _ _ _ _ _).
  do 2 eexists. split; [reflexivity |].
  rewrite (kept_cookie_resolves w2 sessionId _
             (ISession.mk sessionId userId expires expires)
             (IUser.mk userId e digest granted)).
  - repeat split.
  - intros j. apply Hh.
  - apply session_id_nonempty.
  - apply lookup_insert_eq.
  - apply lookup_insert_eq.
  - subst w2 expires. world_simpl. lia.
  - subst w2 expires. world_simpl. rewrite half_duration in *. rewrite duration_value. lia.
Qed.

Lemma signup_then_request_is_authenticated_witness :
  let w := Scenario.world_with ∅ Scenario.ticking in
  let out := signup Scenario.ref_hash
               (Scenario.credentials "new@clinic.test" "pw" (Some "nurse")) w in
  exists cookie next,
    out.1 = inr (mkReply 201
                   (AccountPayload "User created successfully"
                      (SessionUser.mk "00000000-0000-4000-8000-000000000000"
                         "new@clinic.test" "nurse"))
                   [SetCookie cookie]) /\
    (preHandler (returning cookie) out.2).1 = inr next /\
    user next = Some (SessionUser.mk "00000000-0000-4000-8000-000000000000"
                        "new@clinic.test" "nurse").
Proof.
  intros w out.
  destruct (signup_then_request_is_authenticated Scenario.ref_hash w
              (Scenario.credentials "new@clinic.test" "pw" (Some "nurse"))
              "new@clinic.test" "pw" "$ref$00000000000000000000000000000000$pw"
              (scenario_healthy _ _) eq_refl eq_refl
              ltac:(discriminate) ltac:(discriminate)
              ltac:(apply first_with_email_None_inv; vm_compute; reflexivity)
              eq_refl ltac:(discriminate) eq_refl eq_refl
              ltac:(vm_compute; discriminate) ltac:(vm_compute; discriminate))
    as (cookie & next & Hreply & Hnext & Huser & _).
  exists cookie, next. auto.
Defined.

(** ** Logout *)

Lemma unknown_token_is_anonymous (req : FastifyRequest) (w : World) (tok : string) :
  cookies req ≫= (fun jar => jar !! "session") = Some tok ->
  sessions w !! tok = None ->
  exists w', preHandler req w = (inr (set_identity None None req), w').
Proof.
  intros Hjar Hnone.
  destruct (truthy tok) eqn:Htok.
  - pose proof (validateSession_absent tok w Hnone) as Hrej.
    destruct (AuthService.validateSession tok w) as [r w'] eqn:Hrun.
    cbn [fst] in Hrej. subst r. exists w'.
    apply (preHandler_resolves req w w' tok AuthService.rejected); auto.
    intros ->. discriminate.
  - apply truthy_false in Htok. subst tok. exists w.
    unfold preHandler, preHandler_with, try_catch. rewrite Hjar. reflexivity.
Qed.

(** Logout kills the token. When the store answers, logging out a request
    that carries a resolved session answers 200 "Logged out successfully",
    tells the client to clear the [session] cookie, deletes that session and
    no other, and leaves the users alone. Any later request that still
    presents the token is resolved to nobody, and the who-am-I route answers
    it with 401 "Not authenticated". *)
Theorem logout_kills_the_token (w : World) (req : FastifyRequest) (sd : SessionData.t) :
  session req = Some sd ->
  faults w (ops w) = false ->
  let out := logout req w in
  out.1 = inr (mkReply 200 (MessagePayload "Logged out successfully")
                 [ClearCookie "session" "/"]) /\
  users out.2 = users w /\
  sessions out.2 !! SessionData.id sd = None /\
  (forall k, k <> SessionData.id sd -> sessions out.2 !! k = sessions w !! k) /\
  (forall req',
      cookies req' ≫= (fun jar => jar !! "session") = Some (SessionData.id sd) ->
      exists next w',
        preHandler req' out.2 = (inr next, w') /\
        user next = None /\ session next = None /\
        me next w' = (inr (mkReply 401 (ErrorPayload "Unauthorized" "Not authenticated") []),
                      w')).
Proof.
  intros Hsession F out. subst out.
  assert (Hrun : logout req w
                 = (inr logged_out,
                    set_sessions (delete (SessionData.id sd)) (set_ops (S (ops w)) w))).
  { unfold logout. rewrite Hsession. exec. rewrite F. reflexivity. }
  rewrite Hrun. unfold set_sessions, set_ops. world_simpl.
  split; [reflexivity |]. split; [reflexivity |].
  split; [apply lookup_delete_eq |].
  split; [intros k Hk; apply lookup_delete_ne; congruence |].
  intros req' Hjar.
  edestruct (unknown_token_is_anonymous req') as [w' Hpre]; [exact Hjar | | ].
  2: { eexists _, w'. split; [exact Hpre |]. repeat split. }
  world_simpl. apply lookup_delete_eq.
Qed.

Lemma logout_kills_the_token_witness :
  let w := Scenario.world_with Scenario.fresh Scenario.ticking in
  let req := mkRequest (Body.mk None None None) None None
               (Some (SessionData.mk "tok" "u-ana" (Scenario.t0 + 6 * Scenario.day))) in
  exists next w',
    preHandler (Scenario.presenting "tok") (logout req w).2 = (inr next, w') /\
    user next = None.
Proof.
  intros w req.
  destruct (logout_kills_the_token w req
              (SessionData.mk "tok" "u-ana" (Scenario.t0 + 6 * Scenario.day))
              eq_refl eq_refl) as (_ & _ & _ & _ & Hdead).
  destruct (Hdead (Scenario.presenting "tok") eq_refl) as (next & w' & Hpre & Hu & _).
  exists next, w'. auto.
Defined.

(** A failed logout leaves the session alive. When the store fails on the
    delete, logout answers 500 "Failed to logout", does not tell the client
    to clear the cookie, and the session stays in the store; once the store
    answers again the token still validates to its user. A request without
    a resolved session, in contrast, is logged out with 200 without the
    store being consulted. *)
Theorem failed_logout_leaves_the_session_alive
    (w : World) (req : FastifyRequest) (sd : SessionData.t)
    (s : ISession.t) (u : IUser.t) :
  session req = Some sd ->
  faults w (ops w) = true ->
  (forall k, (ops w < k)%nat -> faults w k = false) ->
  SessionData.id sd <> "" ->
  sessions w !! SessionData.id sd = Some s ->
  users w !! ISession.user_id s = Some u ->
  clock w (ticks w) <= ISession.active_expires s ->
  let out := logout req w in
  out.1 = inr (mkReply 500 (ErrorPayload "Internal Server Error" "Failed to logout") []) /\
  sessions out.2 = sessions w /\
  (AuthService.validateSession (SessionData.id sd) out.2).1 = inr (accepted s u) /\
  logout (set_identity (user req) None req) w = (inr logged_out, w).
Proof.
  intros Hsession F Hlater Htok Hs Hu Hlive out. subst out.
  assert (Hrun : logout req w = (inr failed_to_logout, set_ops (S (ops w)) w)).
  { unfold logout. rewrite Hsession. exec. rewrite F. reflexivity. }
  rewrite Hrun. cbn [fst snd]. split; [reflexivity |]. split; [reflexivity |].
  split; [| reflexivity].
  destruct (validateSession_cases (SessionData.id sd) (set_ops (S (ops w)) w))
    as [[Hrej _] | (s' & u' & Hs' & Hu' & _ & _ & _ & Hacc & _)].
  - exfalso. revert Hrej. exec. rewrite (truthy_true _ Htok). world_simpl.
    rewrite (Hlater (S (ops w)) ltac:(lia)). world_simpl. rewrite Hs. world_simpl.
    destruct (Z.ltb_spec (ISession.active_expires s) (clock w (ticks w))); [lia |].
    world_simpl. rewrite (Hlater (S (S (ops w))) ltac:(lia)). world_simpl. rewrite Hu.
    world_simpl.
    destruct (_ <? _); world_simpl;
      rewrite ?(Hlater (S (S (S (ops w)))) ltac:(lia)); world_simpl; discriminate.
  - unfold set_ops in Hs', Hu'. world_simpl.
    assert (s' = s) by congruence. subst s'.
    assert (u' = u) by congruence. subst u'. exact Hacc.
Qed.

Lemma failed_logout_leaves_the_session_alive_witness :
  let w := mkWorld Scenario.staff Scenario.fresh Scenario.ticking 0 (fun k => Nat.eqb k 0) 0
             Scenario.zeros 0 "production" in
  let req := mkRequest (Body.mk None None None) None None
               (Some (SessionData.mk "tok" "u-ana" (Scenario.t0 + 6 * Scenario.day))) in
  (logout req w).1 = inr failed_to_logout /\
  sessions (logout req w).2 !! "tok"
  = Some (Scenario.session_of "tok" "u-ana" (Scenario.t0 + 6 * Scenario.day)).
Proof.
  intros w req.
  destruct (failed_logout_leaves_the_session_alive w req
              (SessionData.mk "tok" "u-ana" (Scenario.t0 + 6 * Scenario.day))
              (Scenario.session_of "tok" "u-ana" (Scenario.t0 + 6 * Scenario.day))
              Scenario.ana eq_refl eq_refl)
    as (Hreply & Hsessions & _).
  - intros k Hk. destruct k; [cbn in Hk; lia | reflexivity].
  - discriminate.
  - reflexivity.
  - reflexivity.
  - vm_compute. discriminate.
  - split; [exact Hreply |]. rewrite Hsessions. reflexivity.
Defined.

(** ** The gates behind the hook *)

Lemma requireAuth_decides (roles : option (list string)) (req : FastifyRequest)
    (w : World) (u : SessionUser.t) :
  user req = Some u ->
  requireAuth roles req w
  = (inr (match roles with
          | Some (r :: rs) =>
            if bool_decide (SessionUser.role u ∈ r :: rs) then None
            else Some insufficient_permissions
          | _ => None
          end), w).
Proof.
  intros Hu. unfold requireAuth, mret, M_ret. rewrite Hu.
  destruct roles as [[| r rs] |]; try reflexivity.
  change (0 <? Z.of_nat (length (r :: rs))) with true. cbn [andb].
  destruct (includes (r :: rs) (SessionUser.role u)) eqn:Hinc; cbn [negb].
  - apply includes_elem_of in Hinc. rewrite bool_decide_eq_true_2; auto.
  - rewrite bool_decide_eq_false_2; [reflexivity |].
    intros Hin. apply includes_elem_of in Hin. congruence.
Qed.

(** The role that the gate checks is the stored one. For a request that
    presents the token of an unexpired session whose owner is in the store
    (the store answering), the hook followed by [requireAuth roles] lets the
    request through exactly when no role set or an empty one is required or
    the owner's stored role is in the set, and otherwise answers 403
    "Insufficient permissions"; what the incoming request claimed as its
    user plays no part. *)
Theorem the_gate_checks_the_stored_role
    (w : World) (req : FastifyRequest) (tok : string)
    (s : ISession.t) (u : IUser.t) (roles : option (list string)) :
  healthy w -> tok <> "" ->
  cookies req ≫= (fun jar => jar !! "session") = Some tok ->
  sessions w !! tok = Some s ->
  users w !! ISession.user_id s = Some u ->
  clock w (ticks w) <= ISession.active_expires s ->
  exists next w',
    preHandler req w = (inr next, w') /\
    user next = Some (SessionUser.mk (IUser._id u) (IUser.email u) (IUser.role u)) /\
    requireAuth roles next w'
    = (inr (match roles with
            | Some (r :: rs) =>
              if bool_decide (IUser.role u ∈ r :: rs) then None
              else Some (mkReply 403
                           (ErrorPayload "Forbidden" "Insufficient permissions") [])
            | _ => None
            end), w').
Proof.
  intros Hh Htok Hjar Hs Hu Hlive.
  assert (exists w', AuthService.validateSession tok w = (inr (accepted s u), w'))
    as [w' Hrun].
  { destruct (Z.lt_ge_cases
                (ISession.active_expires s - clock w (S (ticks w)))
                (AuthService.SESSION_DURATION / 2)) as [Hlt | Hge].
    - eexists. apply validate_extend; eassumption.
    - eexists. apply validate_keep; eassumption. }
  exists (set_identity (accepted s u).2 (accepted s u).1 req), w'.
  split; [apply (preHandler_resolves req w w' tok); assumption |].
  split; [reflexivity |].
  apply (requireAuth_decides roles _ w'
           (SessionUser.mk (IUser._id u) (IUser.email u) (IUser.role u))).
  reflexivity.
Qed.

Lemma the_gate_checks_the_stored_role_witness :
  let w := Scenario.world_with Scenario.fresh Scenario.ticking in
  exists next w',
    preHandler (Scenario.presenting "tok") w = (inr next, w') /\
    requireAuth (Some ["admin"]) next w' = (inr (Some insufficient_permissions), w') /\
    requireAuth (Some ["nurse"; "doctor"]) next w' = (inr None, w').
Proof.
  intros w.
  destruct (the_gate_checks_the_stored_role w (Scenario.presenting "tok") "tok"
              (Scenario.session_of "tok" "u-ana" (Scenario.t0 + 6 * Scenario.day))
              Scenario.ana (Some ["admin"]) (scenario_healthy _ _)
              ltac:(discriminate) eq_refl eq_refl eq_refl
              ltac:(vm_compute; discriminate))
    as (next & w' & Hpre & Hu & Hadmin).
  exists next, w'. split; [exact Hpre |]. split; [exact Hadmin |].
  apply (requireAuth_decides (Some ["nurse"; "doctor"]) next w' _ Hu).
Defined.

(** Without a session cookie there is no identity. For a request whose
    cookie jar is missing, has no [session] entry or has an empty one, the
    hook clears whatever user and session the request object carried,
    without consulting the store (it may be down); thereafter [requireAuth]
    answers 401 "Authentication required" for every role set and the
    who-am-I route answers 401 "Not authenticated". *)
Theorem no_cookie_means_no_identity
    (w : World) (req : FastifyRequest) (roles : option (list string)) :
  truthy_opt (cookies req ≫= (fun jar => jar !! "session")) = false ->
  preHandler req w = (inr (set_identity None None req), w) /\
  requireAuth roles (set_identity None None req) w
  = (inr (Some (mkReply 401 (ErrorPayload "Unauthorized" "Authentication required") [])),
     w) /\
  me (set_identity None None req) w
  = (inr (mkReply 401 (ErrorPayload "Unauthorized" "Not authenticated") []), w).
Proof.
  intros Hnone. split; [| split; reflexivity].
  unfold preHandler, preHandler_with, try_catch.
  destruct (cookies req ≫= (fun jar => jar !! "session")) as [tok |];
    cbn [or_default truthy_opt] in *; [rewrite Hnone |]; reflexivity.
Qed.

Lemma no_cookie_means_no_identity_witness :
  let w := Scenario.flaky_world Scenario.fresh in
  let spoof := mkRequest (Body.mk None None None) (Some ∅)
                 (Some (SessionUser.mk "u-ana" "ana@clinic.test" "admin")) None in
  preHandler spoof w = (inr (set_identity None None spoof), w).
Proof.
  intros w spoof.
  exact (proj1 (no_cookie_means_no_identity w spoof None eq_refl)).
Defined.

(** [requireSession] looks at the cookie only. Any non-empty [session]
    cookie passes it, with no store access, even when no such session
    exists; the same request, once through the hook, is answered 401 by
    [requireAuth]. *)
Theorem requireSession_does_not_validate
    (w : World) (req : FastifyRequest) (jar : gmap string string) (tok : string)
    (roles : option (list string)) :
  cookies req = Some jar ->
  jar !! "session" = Some tok ->
  tok <> "" ->
  sessions w !! tok = None ->
  requireSession req w = (inr None, w) /\
  exists next w',
    preHandler req w = (inr next, w') /\
    requireAuth roles next w'
    = (inr (Some (mkReply 401
                    (ErrorPayload "Unauthorized" "Authentication required") [])), w').
Proof.
  intros Hjar Htok Hne Hnone. split.
  - unfold requireSession. rewrite Hjar, Htok. cbn [truthy_opt].
    rewrite (truthy_true _ Hne). reflexivity.
  - destruct (unknown_token_is_anonymous req w tok) as [w' Hpre]; auto.
    { rewrite Hjar. exact Htok. }
    exists (set_identity None None req), w'. split; [exact Hpre | reflexivity].
Qed.

Lemma requireSession_does_not_validate_witness :
  let w := Scenario.world_with Scenario.fresh Scenario.ticking in
  requireSession (Scenario.presenting "forged") w = (inr None, w).
Proof.
  intros w.
  exact (proj1 (requireSession_does_not_validate w (Scenario.presenting "forged")
                  (<["session" := "forged"]> ∅) "forged" None
                  eq_refl eq_refl ltac:(discriminate) eq_refl)).
Defined.

(** [requireRole role] is an exact, case-sensitive match on the identity's
    role: an identity with exactly that role passes, any other identity is
    answered 403, and in neither case is the world touched. *)
Theorem requireRole_is_an_exact_match
    (role : string) (req : FastifyRequest) (w : World) (u : SessionUser.t) :
  user req = Some u ->
  requireRole role req w
  = (inr (if String.eqb (SessionUser.role u) role then None
          else Some (mkReply 403
                       (ErrorPayload "Forbidden" "Insufficient permissions") [])), w).
Proof.
  intros Hu. unfold requireRole. rewrite (requireAuth_decides _ _ _ u Hu).
  destruct (String.eqb_spec (SessionUser.role u) role) as [-> | Hne].
  - rewrite bool_decide_eq_true_2; [reflexivity |]. apply list_elem_of_here.
  - rewrite bool_decide_eq_false_2; [reflexivity |].
    intros Hin. apply list_elem_of_singleton in Hin. contradiction.
Qed.

Lemma requireRole_is_an_exact_match_witness :
  let w := Scenario.world_with Scenario.fresh Scenario.ticking in
  let req := mkRequest (Body.mk None None None) None
               (Some (SessionUser.mk "u-x" "x@clinic.test" "Admin")) None in
  requireRole "admin" req w = (inr (Some insufficient_permissions), w).
Proof.
  intros w req.
  exact (requireRole_is_an_exact_match "admin" req w
           (SessionUser.mk "u-x" "x@clinic.test" "Admin") eq_refl).
Defined.

(** ** The recent notes of a patient *)

Lemma insert_sorted_Permutation {A} (compare : A -> A -> Z) (x : A) (l : list A) :
  insert_sorted compare x l ≡ₚ x :: l.
Proof.
  induction l as [| y l IH]; cbn [insert_sorted]; [reflexivity |].
  destruct (compare x y <=? 0); [reflexivity |].
  rewrite IH. apply Permutation_swap.
Qed.

Lemma Array_sort_Permutation {A} (compare : A -> A -> Z) (l : list A) :
  Array_sort compare l ≡ₚ l.
Proof.
  induction l as [| x l IH]; [reflexivity |].
  cbn [Array_sort foldr]. rewrite insert_sorted_Permutation.
  constructor. exact IH.
Qed.

Lemma insert_newest_first_sorted (x : PatientNote.t) (l : list PatientNote.t) :
  StronglySorted at_least_as_recent l ->
  StronglySorted at_least_as_recent (insert_sorted newest_first x l).
Proof.
  induction 1 as [| y l Hl IH Hy]; cbn [insert_sorted].
  - repeat constructor.
  - unfold newest_first at 1.
    destruct (Z.leb_spec (PatientNote.date y - PatientNote.date x) 0) as [Hle | Hgt].
    + constructor; [constructor; assumption |].
      constructor; [unfold at_least_as_recent; lia |].
      eapply Forall_impl; [exact Hy |]. unfold at_least_as_recent. intros z Hz. lia.
    + constructor; [exact IH |].
      rewrite insert_sorted_Permutation. constructor; [| exact Hy].
      unfold at_least_as_recent. lia.
Qed.

Lemma sort_newest_first_sorted (l : list PatientNote.t) :
  StronglySorted at_least_as_recent (Array_sort newest_first l).
Proof.
  induction l as [| x l IH]; [constructor |].
  cbn [Array_sort foldr]. apply insert_newest_first_sorted. exact IH.
Qed.

Lemma Array_sort_length {A} (compare : A -> A -> Z) (l : list A) :
  length (Array_sort compare l) = length l.
Proof. apply Permutation_length, Array_sort_Permutation. Qed.

(** [getRecentNotes(limit)] for a non-negative [limit] hands back the
    [limit] most recent notes (all of them when there are fewer), newest
    first: the result and the notes left out together are the patient's
    notes, no note left out is more recent than a note handed back, and the
    patient's own array is left sorted newest first with the same notes.
    Without an argument the limit is 5. *)
Theorem getRecentNotes_returns_the_newest (notes : list PatientNote.t) (limit : Z) :
  0 <= limit ->
  let recent := (getRecentNotes notes (Some limit)).1 in
  let after := (getRecentNotes notes (Some limit)).2 in
  length recent = Nat.min (Z.to_nat limit) (length notes) /\
  StronglySorted at_least_as_recent recent /\
  (exists omitted,
      after = (recent ++ omitted)%list /\
      forall a b, a ∈ recent -> b ∈ omitted -> PatientNote.date b <= PatientNote.date a) /\
  after ≡ₚ notes /\
  StronglySorted at_least_as_recent after /\
  getRecentNotes notes None = getRecentNotes notes (Some 5).
Proof.
  intros Hlimit recent after. subst recent after.
  unfold getRecentNotes. cbn [fst snd default from_option id].
  set (sorted := Array_sort newest_first notes).
  assert (Hsorted : StronglySorted at_least_as_recent sorted)
    by apply sort_newest_first_sorted.
  assert (Hslice : Array_slice_to limit sorted = take (Z.to_nat limit) sorted).
  { unfold Array_slice_to. destruct (Z.ltb_spec limit 0); [lia |].
    destruct (Z.le_ge_cases limit (Z.of_nat (length sorted))).
    - rewrite Z.min_l by lia. reflexivity.
    - rewrite Z.min_r by lia. rewrite Nat2Z.id.
      rewrite !take_ge; auto; lia. }
  rewrite Hslice.
  rewrite <- (take_drop (Z.to_nat limit) sorted) in Hsorted.
  apply StronglySorted_app in Hsorted as (Hcross & Hrecent & _).
  split; [rewrite length_take; subst sorted; rewrite Array_sort_length; reflexivity |].
  split; [exact Hrecent |].
  split; [exists (drop (Z.to_nat limit) sorted); split;
            [symmetry; apply take_drop | exact Hcross] |].
  split; [apply Array_sort_Permutation |].
  split; [apply sort_newest_first_sorted | reflexivity].
Qed.

Lemma getRecentNotes_returns_the_newest_witness :
  let n (d : Z) := PatientNote.mk "t" "c" d in
  length (getRecentNotes [n 3; n 9; n 1; n 7] (Some 2)).1 = 2%nat /\
  (getRecentNotes [n 3; n 9; n 1; n 7] (Some 2)).1 = [n 9; n 7].
Proof.
  intros n. split; [| reflexivity].
  exact (proj1 (getRecentNotes_returns_the_newest [n 3; n 9; n 1; n 7] 2 ltac:(lia))).
Defined.

(** A negative [limit] does not mean "none": [slice(0, limit)] then counts
    from the end, so [getRecentNotes(-k)] hands back all notes but the [k]
    oldest (none when there are at most [k]), still newest first. *)
Theorem getRecentNotes_with_a_negative_limit (notes : list PatientNote.t) (limit : Z) :
  limit < 0 ->
  let recent := (getRecentNotes notes (Some limit)).1 in
  length recent = (length notes - Z.to_nat (- limit))%nat /\
  StronglySorted at_least_as_recent recent /\
  exists oldest,
    (recent ++ oldest)%list ≡ₚ notes /\
    forall a b, a ∈ recent -> b ∈ oldest -> PatientNote.date b <= PatientNote.date a.
Proof.
  intros Hlimit recent. subst recent.
  unfold getRecentNotes. cbn [fst default from_option id].
  set (sorted := Array_sort newest_first notes).
  assert (Hlen : length sorted = length notes) by apply Array_sort_length.
  assert (Hslice : Array_slice_to limit sorted
                   = take (length notes - Z.to_nat (- limit)) sorted).
  { unfold Array_slice_to. destruct (Z.ltb_spec limit 0); [| lia].
    f_equal. rewrite Hlen. lia. }
  rewrite Hslice.
  pose proof (sort_newest_first_sorted notes) as Hsorted. fold sorted in Hsorted.
  rewrite <- (take_drop (length notes - Z.to_nat (- limit)) sorted) in Hsorted.
  apply StronglySorted_app in Hsorted as (Hcross & Hrecent & _).
  split; [rewrite length_take; lia |]. split; [exact Hrecent |].
  exists (drop (length notes - Z.to_nat (- limit)) sorted).
  split; [| exact Hcross].
  rewrite take_drop. apply Array_sort_Permutation.
Qed.

Lemma getRecentNotes_with_a_negative_limit_witness :
  let n (d : Z) := PatientNote.mk "t" "c" d in
  length (getRecentNotes [n 3; n 9; n 1; n 7] (Some (-1))).1 = 3%nat.
Proof.
  intros n.
  exact (proj1 (getRecentNotes_with_a_negative_limit [n 3; n 9; n 1; n 7] (-1) ltac:(lia))).
Defined.

(** ** Logging a user out everywhere *)

(** After [invalidateAllUserSessions userId] (the store answering) none of
    that user's tokens validates any more, while the session of any other
    user is still stored as it was. *)
Theorem invalidated_user_has_no_valid_token
    (w : World) (userId tok : string) (s : ISession.t) :
  faults w (ops w) = false ->
  sessions w !! tok = Some s ->
  ISession.user_id s = userId ->
  let out := AuthService.invalidateAllUserSessions userId w in
  out.1 = inr tt /\
  (AuthService.validateSession tok out.2).1 = inr AuthService.rejected /\
  (forall tok' s', sessions w !! tok' = Some s' -> ISession.user_id s' <> userId ->
                   sessions out.2 !! tok' = Some s').
Proof.
  intros F Hs Howner out. subst out. exec. rewrite F. world_simpl.
  split; [reflexivity |]. split.
  - match goal with |- (?v).1 = _ =>
      change v with (AuthService.validateSession tok
                       (mkWorld (users w)
                          (filter (fun kv => ISession.user_id kv.2 ≠ userId) (sessions w))
                          (clock w) (ticks w) (faults w) (S (ops w)) (rng w) (drawn w)
                          (NODE_ENV w)))
    end.
    apply validateSession_absent. world_simpl.
    apply map_lookup_filter_None. right. intros s' Hs' Hkeep. cbn in Hkeep. congruence.
  - intros tok' s' Hs' Hother. apply map_lookup_filter_Some. split; assumption.
Qed.

Lemma invalidated_user_has_no_valid_token_witness :
  let w := Scenario.world_with Scenario.ward Scenario.ticking in
  (AuthService.validateSession "a2" (AuthService.invalidateAllUserSessions "u-ana" w).2).1
  = inr AuthService.rejected.
Proof.
  intros w.
  exact (proj1 (proj2 (invalidated_user_has_no_valid_token w "u-ana" "a2"
                         (Scenario.session_of "a2" "u-ana" (Scenario.t0 + 3 * Scenario.day))
                         eq_refl eq_refl eq_refl))).
Defined.
